(** * gerar_csv.py: annotation parsing, frame labelling, keypoint rows

    A shallow embedding of [src/gerar_csv.py] and the properties its
    specification states about it.

    Conventions of the embedding:
    - a Python [int] is a [Z]; a Python [float] is a binary64 [float];
    - a Python [str] is a [string]; its characters stand for the code points
      0..255 of the decoded text;
    - a raised exception is the [Raise] branch of [result];
    - the annotation dictionary is an association list in insertion order,
      written with [dict_set] (a later write for a key keeps its place);
    - the file system holds, by path, the rows handed to [csv.writer], the
      text files that can be read, and the directories. *)

From Stdlib Require Import ZArith Ascii String DecimalString PrimFloat.
From stdpp Require Import base list strings gmap.

Open Scope Z_scope.

#[local] Set Warnings "-register-all".

(** ** Exceptions and results *)

Inductive exn : Type :=
| IndexError
| ValueError
| TypeError
| FileNotFoundError
| FileExistsError
| IsADirectoryError
| DetectorError (code : nat).

Inductive result (A : Type) : Type :=
| Ok (a : A)
| Raise (e : exn).

Arguments Ok {A} a.
Arguments Raise {A} e.

#[global] Instance result_ret : MRet result := λ A a, Ok a.

#[global] Instance result_bind : MBind result := λ A B k r,
  match r with
  | Ok a => k a
  | Raise e => Raise e
  end.

Definition raised {A : Type} (r : result A) : Prop := ∃ e, r = Raise e.

(** [l[i]] for a non-negative literal index. *)
Definition py_index {A : Type} (l : list A) (i : nat) : result A :=
  match l !! i with
  | Some a => Ok a
  | None => Raise IndexError
  end.

(** ** Python strings *)

Module PyStr.

(** [str.isspace] on the code points below 256. *)
Definition isspace (c : ascii) : bool :=
  let n := nat_of_ascii c in
  ((9 <=? n)%nat && (n <=? 13)%nat)
  || ((28 <=? n)%nat && (n <=? 32)%nat)
  || (n =? 133)%nat || (n =? 160)%nat.

Definition is_empty (s : string) : bool :=
  match s with
  | EmptyString => true
  | String _ _ => false
  end.

Fixpoint lstrip (s : string) : string :=
  match s with
  | EmptyString => EmptyString
  | String c r => if isspace c then lstrip r else s
  end.

Fixpoint rstrip (s : string) : string :=
  match s with
  | EmptyString => EmptyString
  | String c r =>
      let r' := rstrip r in
      if is_empty r' && isspace c then EmptyString else String c r'
  end.

(** [s.strip()] *)
Definition strip (s : string) : string := rstrip (lstrip s).

Fixpoint split_from (s cur : string) : list string :=
  match s with
  | EmptyString => if is_empty cur then [] else [cur]
  | String c r =>
      if isspace c
      then (if is_empty cur then split_from r "" else cur :: split_from r "")
      else split_from r (cur +:+ String c "")
  end.

(** [s.split()]: the maximal runs of non-whitespace characters. *)
Definition split (s : string) : list string := split_from s "".

Definition digit_value (c : ascii) : option Z :=
  let n := nat_of_ascii c in
  if (48 <=? n)%nat && (n <=? 57)%nat then Some (Z.of_nat (n - 48)) else None.

(** Digits with single underscores between them; [prev] tells whether the
    previous character was a digit; [count] counts the digits. *)
Fixpoint digits_from (s : string) (acc : Z) (prev : bool) (count : nat)
  : option (Z * nat) :=
  match s with
  | EmptyString => if prev then Some (acc, count) else None
  | String c r =>
      match digit_value c with
      | Some d => digits_from r (10 * acc + d) true (S count)
      | None =>
          if Ascii.eqb c "_"%char && prev
          then digits_from r acc false count
          else None
      end
  end.

(** The interpreter's default limit on the digits of a converted string
    ([sys.get_int_max_str_digits()]). *)
Definition int_max_str_digits : nat := 4300.

Definition unsigned_int (s : string) : result Z :=
  match digits_from s 0 false 0 with
  | Some (v, count) =>
      if (int_max_str_digits <? count)%nat then Raise ValueError else Ok v
  | None => Raise ValueError
  end.

(** The whitespace [int] drops around the digits: the ASCII whitespace of
    C, and the two other spaces below 256, which it first turns into a
    blank. The separators 28..31 are not among them. *)
Definition int_isspace (c : ascii) : bool :=
  let n := nat_of_ascii c in
  ((9 <=? n)%nat && (n <=? 13)%nat)
  || (n =? 32)%nat || (n =? 133)%nat || (n =? 160)%nat.

Fixpoint int_lstrip (s : string) : string :=
  match s with
  | EmptyString => EmptyString
  | String c r => if int_isspace c then int_lstrip r else s
  end.

Fixpoint int_rstrip (s : string) : string :=
  match s with
  | EmptyString => EmptyString
  | String c r =>
      let r' := int_rstrip r in
      if is_empty r' && int_isspace c then EmptyString else String c r'
  end.

(** [int(s)] in base 10. *)
Definition int (s : string) : result Z :=
  match int_rstrip (int_lstrip s) with
  | String "-" r => v ← unsigned_int r; Ok (- v)
  | String "+" r => unsigned_int r
  | t => unsigned_int t
  end.

(** [str(z)] for an integer. *)
Definition of_Z (z : Z) : string := NilZero.string_of_int (Z.to_int z).

(** The lines a text file yields when iterated, newline translation
    included: each of LF, CR LF and CR ends a line, and the line is handed
    over with a final LF. *)
Fixpoint lines_from (s cur : string) : list string :=
  match s with
  | EmptyString => if is_empty cur then [] else [cur]
  | String c r =>
      if Ascii.eqb c "010"%char then (cur +:+ String "010" "") :: lines_from r ""
      else if Ascii.eqb c "013"%char then
        match r with
        | String c' r' =>
            if Ascii.eqb c' "010"%char
            then (cur +:+ String "010" "") :: lines_from r' ""
            else (cur +:+ String "010" "") :: lines_from r ""
        | EmptyString => [cur +:+ String "010" ""]
        end
      else lines_from r (cur +:+ String c "")
  end.

Definition file_lines (text : string) : list string := lines_from text "".

End PyStr.

(** ** The annotation dictionary *)

Record Annotation : Type := mkAnnotation {
  event : string;
  intervals : list (Z * Z)
}.

(** [d[k] = v] on a dictionary kept in insertion order. *)
Fixpoint dict_set {V : Type} (d : list (string * V)) (k : string) (v : V)
  : list (string * V) :=
  match d with
  | [] => [(k, v)]
  | (k', v') :: rest =>
      if String.eqb k' k then (k, v) :: rest else (k', v') :: dict_set rest k v
  end.

(** ** read_annotations *)

(** The body of the [for line in f] loop: one line, the dictionary so far. *)
Definition read_annotations_body
  (annotations : list (string * Annotation)) (line : string)
  : result (list (string * Annotation)) :=
  let line := PyStr.strip line in
  if PyStr.is_empty line then Ok annotations
  else
    let parts := PyStr.split line in
    video_name ← py_index parts 0;
    event_name ← py_index parts 1;
    p2 ← py_index parts 2;
    start1 ← PyStr.int p2;
    p3 ← py_index parts 3;
    end1 ← PyStr.int p3;
    p4 ← py_index parts 4;
    start2 ← PyStr.int p4;
    p5 ← py_index parts 5;
    end2 ← PyStr.int p5;
    let intervals : list (Z * Z) := [] in
    let intervals :=
      if negb (Z.eqb start1 (-1)) && negb (Z.eqb end1 (-1))
      then (intervals ++ [(start1, end1)]) else intervals in
    let intervals :=
      if negb (Z.eqb start2 (-1)) && negb (Z.eqb end2 (-1))
      then (intervals ++ [(start2, end2)]) else intervals in
    Ok (dict_set annotations video_name (mkAnnotation event_name intervals)).

Fixpoint read_annotations_loop
  (lines : list string) (annotations : list (string * Annotation))
  : result (list (string * Annotation)) :=
  match lines with
  | [] => Ok annotations
  | line :: rest =>
      annotations' ← read_annotations_body annotations line;
      read_annotations_loop rest annotations'
  end.

(** [read_annotations], given the text of the file at [txt_path]. *)
Definition read_annotations (text : string)
  : result (list (string * Annotation)) :=
  read_annotations_loop (PyStr.file_lines text) [].

(** ** Frame labelling *)

Fixpoint is_frame_in_annotation (frame_number : Z) (intervals : list (Z * Z))
  : Z :=
  match intervals with
  | [] => 0
  | (start, end_) :: rest =>
      if Z.leb start frame_number && Z.leb frame_number end_ then 1
      else is_frame_in_annotation frame_number rest
  end.

(** The label of a frame, as [process_video] sets it. *)
Definition frame_label (event_name : string) (frame_count : Z)
  (intervals : list (Z * Z)) : Z :=
  if String.eqb event_name "Fighting"
  then is_frame_in_annotation frame_count intervals
  else 0.

(** ** Values, arrays and detections *)

(** A cell handed to [csv.writer]. *)
Inductive pyval : Type :=
| PInt (z : Z)
| PFloat (x : float)
| PStr (s : string).

(** A NumPy array as nested sequences; a [Scalar] is an element. *)
Inductive ndarray : Type :=
| Scalar (x : float)
| Array (items : list ndarray).

Module Np.

(** [a.shape[0]] *)
Definition shape0 (a : ndarray) : result nat :=
  match a with
  | Scalar _ => Raise IndexError
  | Array items => Ok (length items)
  end.

(** [a[i]] *)
Definition item (a : ndarray) (i : nat) : result ndarray :=
  match a with
  | Scalar _ => Raise IndexError
  | Array items => py_index items i
  end.

(** [for point in a] *)
Definition iterate (a : ndarray) : result (list ndarray) :=
  match a with
  | Scalar _ => Raise TypeError
  | Array items => Ok items
  end.

Fixpoint elements (a : ndarray) : list float :=
  match a with
  | Scalar x => [x]
  | Array items => concat (map elements items)
  end.

(** [float(a)]: an element, or an array that holds exactly one. *)
Definition to_float (a : ndarray) : result float :=
  match elements a with
  | [x] => Ok x
  | _ => Raise TypeError
  end.

End Np.

(** One detected person; [xy] is [person.xy.cpu().numpy()]. *)
Record Person : Type := mkPerson { xy : ndarray }.

(** One entry of the detector's [results]. *)
Record PoseResult : Type := mkPoseResult { keypoints : option (list Person) }.

(** [for point in kp_array: coords.extend([float(point[0]), float(point[1])])] *)
Fixpoint points_loop (points : list ndarray) (coords : list pyval)
  : result (list pyval) :=
  match points with
  | [] => Ok coords
  | point :: rest =>
      p0 ← Np.item point 0;
      x ← Np.to_float p0;
      p1 ← Np.item point 1;
      y ← Np.to_float p1;
      points_loop rest (coords ++ [PFloat x; PFloat y])
  end.

(** The body of [for person in detected.keypoints]: the person's row of
    coordinates. *)
Definition person_coords (person : Person) : result (list pyval) :=
  let kp_array := xy person in
  n ← Np.shape0 kp_array;
  kp_array ← (if Nat.eqb n 1 then Np.item kp_array 0 else Ok kp_array);
  points ← Np.iterate kp_array;
  coords ← points_loop points [];
  Ok (if Nat.ltb (length coords) 34
      then coords ++ repeat (PInt 0) (34 - length coords)
      else coords).

Fixpoint persons_loop (persons : list Person) (all_detections : list (list pyval))
  : result (list (list pyval)) :=
  match persons with
  | [] => Ok all_detections
  | person :: rest =>
      coords ← person_coords person;
      persons_loop rest (all_detections ++ [coords])
  end.

(** Lines 78-104 of [detect_keypoints]: from the detector's [results] to the
    list of detections. *)
Definition collect_detections (results : list PoseResult)
  : result (list (list pyval)) :=
  all_detections ←
    match results with
    | [] => Ok []
    | detected :: _ =>
        match keypoints detected with
        | None => Ok []
        | Some [] => Ok []
        | Some persons => persons_loop persons []
        end
    end;
  match all_detections with
  | [] => Ok [repeat (PInt 0) 34]
  | _ => Ok all_detections
  end.

(** ** The world the script runs in *)

(** What the script prints. *)
Inductive message : Type :=
| ErrorCannotOpen (video_path : string)
| InfoProcessed (video_path output_csv_path : string) (frames : Z)
| InfoStart (video_name event_name : string).

Record World : Type := mkWorld {
  (** the rows written to each CSV file *)
  csv_files : gmap string (list (list pyval));
  (** the text files that can be read *)
  text_files : gmap string string;
  (** the directories *)
  directories : gset string;
  (** the printed lines, oldest first *)
  console : list message;
  (** the paths of the video captures opened and not yet released *)
  open_captures : list string
}.

Definition print (w : World) (m : message) : World :=
  mkWorld (csv_files w) (text_files w) (directories w) (console w ++ [m])
    (open_captures w).

(** The file at [path] after [open(path, 'w')] and the rows written: what
    the path held before is gone. *)
Definition write_csv (w : World) (path : string) (rows : list (list pyval))
  : World :=
  mkWorld (<[path := rows]> (csv_files w)) (delete path (text_files w))
    (directories w) (console w) (open_captures w).

Definition acquire (w : World) (path : string) : World :=
  mkWorld (csv_files w) (text_files w) (directories w) (console w)
    (path :: open_captures w).

Fixpoint remove_first (path : string) (l : list string) : list string :=
  match l with
  | [] => []
  | p :: rest => if String.eqb p path then rest else p :: remove_first path rest
  end.

(** [cap.release()] *)
Definition release (w : World) (path : string) : World :=
  mkWorld (csv_files w) (text_files w) (directories w) (console w)
    (remove_first path (open_captures w)).

(** The world with one more directory. *)
Definition with_directory (w : World) (name : string) : World :=
  mkWorld (csv_files w) (text_files w) ({[name]} ∪ directories w) (console w)
    (open_captures w).

(** [os.makedirs(name, exist_ok=True)] for a name of one component, as
    [csv_output_dir] is: a directory of that name is left alone, a regular
    file of that name is an error, and otherwise the directory is made. *)
Definition makedirs_exist_ok (w : World) (name : string)
  : World * result unit :=
  if decide (name ∈ directories w) then (w, Ok tt)
  else
    match csv_files w !! name, text_files w !! name with
    | None, None => (with_directory w name, Ok tt)
    | _, _ => (w, Raise FileExistsError)
    end.

(** The header row of a table. *)
Definition header : list pyval :=
  [PStr "frame"; PStr "person_id"]
  ++ flat_map (λ i, [PStr ("x" +:+ PyStr.of_Z (Z.of_nat i));
                     PStr ("y" +:+ PyStr.of_Z (Z.of_nat i))]) (seq 1 17)
  ++ [PStr "label"].

(** ** The pipeline *)

Section Pipeline.

(** A decoded frame, and the two library calls [detect_keypoints] makes. *)
Variable Frame : Type.
Variable cvtColor : Frame → Frame.
Variable pose_model : Frame → result (list PoseResult).

(** The frames of the video at a path; [None] when it cannot be opened. *)
Variable video_store : string → option (list Frame).

(** [os.path.join] and [os.path.splitext]. *)
Variable os_path_join : string → string → string.
Variable os_path_splitext : string → string * string.

(** The text [csv.writer] gives the rows of a file. *)
Variable csv_text : list (list pyval) → string.

Definition detect_keypoints (frame : Frame) : result (list (list pyval)) :=
  let frame_rgb := cvtColor frame in
  results ← pose_model frame_rgb;
  collect_detections results.

(** The [while True] loop of [process_video] over the frames [cap.read()]
    still has to give; returns the rows written, the frame count and how
    the loop ended. *)
Fixpoint frame_loop (event_name : string) (intervals : list (Z * Z))
  (frames : list Frame) (frame_count : Z) (rows : list (list pyval))
  : list (list pyval) * Z * result unit :=
  match frames with
  | [] => (rows, frame_count, Ok tt)
  | frame :: rest =>
      let frame_count := frame_count + 1 in
      match detect_keypoints frame with
      | Raise e => (rows, frame_count, Raise e)
      | Ok detections =>
          let label := frame_label event_name frame_count intervals in
          frame_loop event_name intervals rest frame_count
            (rows ++ imap (λ person_id keypoints,
                             [PInt frame_count; PInt (Z.of_nat person_id)]
                             ++ keypoints ++ [PInt label]) detections)
      end
  end.

Definition process_video (video_path event_name : string)
  (intervals : list (Z * Z)) (output_csv_path : string) (w : World)
  : World * result unit :=
  match video_store video_path with
  | None => (print w (ErrorCannotOpen video_path), Ok tt)
  | Some frames =>
      let w := acquire w video_path in
      let '(rows, frame_count, r) :=
        frame_loop event_name intervals frames 0 [header] in
      let w := write_csv w output_csv_path rows in
      match r with
      | Raise e => (w, Raise e)
      | Ok _ =>
          let w := release w video_path in
          (print w (InfoProcessed video_path output_csv_path frame_count),
           Ok tt)
      end
  end.

Definition annotations_file : string :=
  os_path_join "annotations" "temporal_annotation.txt".
Definition dataset_dir : string := "dataset".
Definition csv_output_dir : string := "csv".

(** [for video_name, info in annotations.items()] *)
Fixpoint main_loop (items : list (string * Annotation)) (w : World)
  : World * result unit :=
  match items with
  | [] => (w, Ok tt)
  | (video_name, info) :: rest =>
      let event_name := event info in
      let intervals := intervals info in
      let video_path := os_path_join dataset_dir video_name in
      let output_csv_path :=
        os_path_join csv_output_dir
          ((os_path_splitext video_name).1 +:+ ".csv") in
      let w := print w (InfoStart video_name event_name) in
      match process_video video_path event_name intervals output_csv_path w
      with
      | (w, Raise e) => (w, Raise e)
      | (w, Ok _) => main_loop rest w
      end
  end.

(** [open(txt_path, 'r')] and the text read. *)
Definition read_text (w : World) (txt_path : string) : result string :=
  match text_files w !! txt_path with
  | Some text => Ok text
  | None =>
      match csv_files w !! txt_path with
      | Some rows => Ok (csv_text rows)
      | None =>
          if decide (txt_path ∈ directories w) then Raise IsADirectoryError
          else Raise FileNotFoundError
      end
  end.

Definition main (w : World) : World * result unit :=
  match makedirs_exist_ok w csv_output_dir with
  | (w, Raise e) => (w, Raise e)
  | (w, Ok _) =>
      match read_text w annotations_file with
      | Raise e => (w, Raise e)
      | Ok text =>
          match read_annotations text with
          | Raise e => (w, Raise e)
          | Ok annotations => main_loop annotations w
          end
      end
  end.

End Pipeline.

Arguments detect_keypoints {Frame} cvtColor pose_model frame.
Arguments frame_loop {Frame} cvtColor pose_model event_name intervals
  frames frame_count rows.
Arguments process_video {Frame} cvtColor pose_model video_store
  video_path event_name intervals output_csv_path w.
Arguments main_loop {Frame} cvtColor pose_model video_store
  os_path_join os_path_splitext items w.
Arguments main {Frame} cvtColor pose_model video_store
  os_path_join os_path_splitext csv_text w.

(** ** Vocabulary of the specification *)

(** The persons the detector reported for a frame. *)
Definition detected_persons (results : list PoseResult) : list Person :=
  match results with
  | [] => []
  | detected :: _ =>
      match keypoints detected with
      | None => []
      | Some persons => persons
      end
  end.

(** A person's points as the array shapes the detector may hand over:
    [(n, 2)] for the flat list, [(1, n, 2)] for the list wrapped once. *)
Definition point_array (p : float * float) : ndarray :=
  Array [Scalar p.1; Scalar p.2].

Definition flat_points (pts : list (float * float)) : ndarray :=
  Array (map point_array pts).

Definition wrapped_points (pts : list (float * float)) : ndarray :=
  Array [flat_points pts].

(** The coordinates of the points, flattened in order. *)
Definition flatten_points (pts : list (float * float)) : list pyval :=
  flat_map (λ p, [PFloat p.1; PFloat p.2]) pts.

(** The 34-value vector of a person with the points [pts]. *)
Definition normalized (pts : list (float * float)) : list pyval :=
  flatten_points pts ++ repeat (PInt 0) (34 - 2 * length pts).

Definition nl : string := String "010" "".

(** A non-blank line that has fewer than six tokens, or whose third to sixth
    token [int] does not accept. *)
Definition short_or_non_integer (line : string) : Prop :=
  let parts := PyStr.split (PyStr.strip line) in
  PyStr.strip line ≠ ""
  ∧ ((length parts < 6)%nat
     ∨ ∃ i t, (2 ≤ i ≤ 5)%nat ∧ parts !! i = Some t ∧ raised (PyStr.int t)).

(** The frame index and the person index a data row starts with. *)
Definition row_key (row : list pyval) : option (Z * Z) :=
  match row with
  | PInt frame :: PInt person_id :: _ => Some (frame, person_id)
  | _ => None
  end.

(** The rows of frame [n] with the vectors [detections]: one per person,
    person 0 first. *)
Definition frame_rows (event_name : string) (intervals : list (Z * Z))
  (n : Z) (detections : list (list pyval)) : list (list pyval) :=
  imap (λ person_id keypoints,
          [PInt n; PInt (Z.of_nat person_id)] ++ keypoints
          ++ [PInt (frame_label event_name n intervals)]) detections.

(** The column names of a table, spelled out. *)
Definition column_names : list string :=
  ["frame"; "person_id";
   "x1"; "y1"; "x2"; "y2"; "x3"; "y3"; "x4"; "y4"; "x5"; "y5"; "x6"; "y6";
   "x7"; "y7"; "x8"; "y8"; "x9"; "y9"; "x10"; "y10"; "x11"; "y11";
   "x12"; "y12"; "x13"; "y13"; "x14"; "y14"; "x15"; "y15"; "x16"; "y16";
   "x17"; "y17"; "label"].

(** A small concrete world to run the pipeline in: a frame is what the
    detector answers on it, and three videos exist. *)
Module Fixture.

Definition Frame : Type := result (list PoseResult).
Definition cvtColor (frame : Frame) : Frame := frame.
Definition pose_model (frame : Frame) : result (list PoseResult) := frame.

Definition one_person : Frame :=
  Ok [mkPoseResult (Some [mkPerson (wrapped_points [(1.5, 2.5)%float])])].
Definition two_persons : Frame :=
  Ok [mkPoseResult
        (Some [mkPerson (wrapped_points [(1.5, 2.5)%float]);
               mkPerson (wrapped_points [])])].
Definition nobody : Frame := Ok [].
Definition detector_down : Frame := Raise (DetectorError 0).

Definition video_store (path : string) : option (list Frame) :=
  if String.eqb path "dataset/a.mp4" then Some [nobody; two_persons]
  else if String.eqb path "dataset/empty.mp4" then Some []
  else if String.eqb path "dataset/bad.mp4"
  then Some [one_person; detector_down; one_person]
  else None.

Definition os_path_join (a b : string) : string := a +:+ "/" +:+ b.

(** Enough of [os.path.splitext] for names with a three-letter extension. *)
Definition os_path_splitext (p : string) : string * string :=
  (substring 0 (String.length p - 4) p, substring (String.length p - 4) 4 p).

(** Enough of [csv.writer] for files that are not read back. *)
Definition csv_text (rows : list (list pyval)) : string := "".

Definition empty_world : World := mkWorld ∅ ∅ ∅ [] [].

End Fixture.

(** [d.get(k)] on a dictionary kept in insertion order. *)
Fixpoint dict_get {V : Type} (d : list (string * V)) (k : string) : option V :=
  match d with
  | [] => None
  | (k', v') :: rest => if String.eqb k' k then Some v' else dict_get rest k
  end.

(** The video a line names: its first token, if it has one. *)
Definition line_video (line : string) : option string :=
  head (PyStr.split (PyStr.strip line)).

(** A regular file of that name exists. *)
Definition regular_file (w : World) (name : string) : Prop :=
  is_Some (csv_files w !! name) ∨ is_Some (text_files w !! name).

(** ** Frame labelling: proofs *)

Lemma is_frame_in_annotation_bit (n : Z) (ivs : list (Z * Z)) :
  is_frame_in_annotation n ivs = 0 ∨ is_frame_in_annotation n ivs = 1.
Proof.
  induction ivs as [|[s e] ivs IH]; simpl; [by left|].
  destruct (Z.leb s n && Z.leb n e); [by right|exact IH].
Qed.

Lemma is_frame_in_annotation_one (n : Z) (ivs : list (Z * Z)) :
  is_frame_in_annotation n ivs = 1 ↔ ∃ s e, (s, e) ∈ ivs ∧ s ≤ n ∧ n ≤ e.
Proof.
  induction ivs as [|[s e] ivs IH]; simpl.
  - split; [done|]. intros (s & e & Hin & _). by apply elem_of_nil in Hin.
  - destruct (Z.leb s n && Z.leb n e) eqn:Hb.
    + apply andb_true_iff in Hb as [H1 H2].
      apply Z.leb_le in H1. apply Z.leb_le in H2.
      split; [|done]. intros _. exists s, e. split; [left|done].
    + rewrite IH. apply andb_false_iff in Hb.
      split; intros (s' & e' & Hin & Hs & He); exists s', e'.
      * split; [by right|done].
      * split; [|done]. apply elem_of_cons in Hin as [Heq|Hin]; [|done].
        injection Heq as -> ->.
        destruct Hb as [Hb|Hb]; apply Z.leb_gt in Hb; lia.
Qed.

(** C1. [frame_label] is 1 exactly when the event is "Fighting" and the
    frame index lies in some closed interval [start, end] of the list, both
    ends included; in every other case it is 0. In particular both ends of a
    listed interval are labelled 1, and an empty list gives 0. *)
Theorem frame_label_spec (event_name : string) (n : Z) (ivs : list (Z * Z)) :
  let positive :=
    event_name = "Fighting" ∧ ∃ s e, (s, e) ∈ ivs ∧ s ≤ n ∧ n ≤ e in
  (frame_label event_name n ivs = 1 ↔ positive)
  ∧ (frame_label event_name n ivs = 0 ↔ ¬ positive)
  ∧ (∀ s e, (s, e) ∈ ivs → s ≤ e →
       frame_label "Fighting" s ivs = 1 ∧ frame_label "Fighting" e ivs = 1)
  ∧ frame_label event_name n [] = 0.
Proof.
  intros positive.
  assert (Hone : frame_label event_name n ivs = 1 ↔ positive).
  { unfold frame_label, positive.
    destruct (String.eqb_spec event_name "Fighting") as [->|Hne].
    - rewrite is_frame_in_annotation_one. split; [by split|by intros [_ ?]].
    - split; [done|]. by intros [? _]. }
  assert (Hbit : frame_label event_name n ivs = 0
                 ∨ frame_label event_name n ivs = 1).
  { unfold frame_label. destruct (String.eqb event_name "Fighting");
      [apply is_frame_in_annotation_bit|by left]. }
  split; [exact Hone|]. split; [|split].
  - rewrite <- Hone. destruct Hbit as [H0|H1]; rewrite ?H0, ?H1.
    + split; [intros _; discriminate|done].
    + split; [discriminate|]. intros Hn. by destruct Hn.
  - intros s e Hin Hse. unfold frame_label. simpl.
    split; apply is_frame_in_annotation_one; exists s, e; repeat split; done || lia.
  - unfold frame_label. by destruct (String.eqb event_name "Fighting").
Qed.

Lemma frame_label_spec_witness :
  frame_label "Fighting" 3103 [(1820, 3103)] = 1.
Proof.
  apply (frame_label_spec "Fighting" 3103 [(1820, 3103)]).
  split; [reflexivity|].
  exists 1820, 3103. split; [left|lia].
Defined.

(** ** Keypoint normalization: proofs *)

Lemma length_flatten_points (pts : list (float * float)) :
  length (flatten_points pts) = (2 * length pts)%nat.
Proof. induction pts as [|p pts IH]; simpl; [done|]. rewrite IH. lia. Qed.

Lemma length_normalized (pts : list (float * float)) :
  (length pts ≤ 17)%nat → length (normalized pts) = 34%nat.
Proof.
  intros Hle. unfold normalized.
  rewrite length_app, length_flatten_points, repeat_length. lia.
Qed.

Lemma points_loop_point_arrays (pts : list (float * float)) (coords : list pyval) :
  points_loop (map point_array pts) coords = Ok (coords ++ flatten_points pts).
Proof.
  revert coords. induction pts as [|[x y] pts IH]; intros coords; simpl.
  - by rewrite app_nil_r.
  - rewrite IH. by rewrite <- app_assoc.
Qed.

(** Padding after the loop, for any number of points. *)
Lemma pad_flatten_points (pts : list (float * float)) :
  (if Nat.ltb (length (flatten_points pts)) 34
   then flatten_points pts
        ++ repeat (PInt 0) (34 - length (flatten_points pts))
   else flatten_points pts) = normalized pts.
Proof.
  unfold normalized. rewrite length_flatten_points.
  destruct (Nat.ltb_spec (2 * length pts) 34) as [Hlt|Hge]; [done|].
  replace (34 - 2 * length pts)%nat with 0%nat by lia.
  simpl. by rewrite app_nil_r.
Qed.

Lemma person_coords_wrapped (pts : list (float * float)) :
  person_coords (mkPerson (wrapped_points pts)) = Ok (normalized pts).
Proof.
  unfold person_coords. simpl.
  rewrite points_loop_point_arrays. simpl.
  by rewrite pad_flatten_points.
Qed.

Lemma person_coords_flat (pts : list (float * float)) :
  length pts ≠ 1%nat →
  person_coords (mkPerson (flat_points pts)) = Ok (normalized pts).
Proof.
  intros Hlen. unfold person_coords. simpl. rewrite length_map.
  destruct (Nat.eqb_spec (length pts) 1) as [Heq|_]; [done|]. simpl.
  rewrite points_loop_point_arrays. simpl.
  by rewrite pad_flatten_points.
Qed.

Lemma person_coords_flat_single (p : float * float) :
  person_coords (mkPerson (flat_points [p])) = Raise IndexError.
Proof. reflexivity. Qed.

(** The two shapes give the same vector, except for a flat list of exactly
    one point, whose only row is taken for the list of points. *)
Lemma person_coords_shapes (pts : list (float * float)) :
  person_coords (mkPerson (flat_points pts))
  = person_coords (mkPerson (wrapped_points pts))
  ↔ length pts ≠ 1%nat.
Proof.
  split.
  - intros Heq Hlen. destruct pts as [|p [|q pts]]; discriminate.
  - intros Hlen. by rewrite person_coords_flat, person_coords_wrapped.
Qed.

Lemma persons_loop_wrapped (ptss : list (list (float * float)))
  (all_detections : list (list pyval)) :
  persons_loop (map (λ pts, mkPerson (wrapped_points pts)) ptss) all_detections
  = Ok (all_detections ++ map normalized ptss).
Proof.
  revert all_detections.
  induction ptss as [|pts ptss IH]; intros all_detections.
  - simpl. by rewrite app_nil_r.
  - cbn [map persons_loop]. rewrite person_coords_wrapped. simpl.
    rewrite IH. by rewrite <- app_assoc.
Qed.

(** C2. When the detector reports no person (no result at all, no keypoints
    in the first result, or an empty keypoint list), the normalization gives
    exactly one vector, of exactly 34 values, every one of them zero. *)
Theorem collect_detections_no_person (results : list PoseResult) :
  detected_persons results = [] →
  ∃ v, collect_detections results = Ok [v]
       ∧ length v = 34%nat
       ∧ ∀ c, c ∈ v → c = PInt 0.
Proof.
  intros Hnone. exists (repeat (PInt 0) 34). split; [|split].
  - destruct results as [|[[persons|]] rest]; simpl in *; subst; reflexivity.
  - reflexivity.
  - intros c Hc. apply list_elem_of_In in Hc. by apply repeat_spec in Hc.
Qed.

Lemma collect_detections_no_person_witness :
  ∃ v, collect_detections [mkPoseResult (Some [])] = Ok [v]
       ∧ length v = 34%nat
       ∧ ∀ c, c ∈ v → c = PInt 0.
Proof.
  apply (collect_detections_no_person [mkPoseResult (Some [])]).
  reflexivity.
Defined.

(** For k >= 1 persons in the shape (1, n, 2), each with at most 17
    points, the normalization gives exactly k vectors in the detector's
    order; each has length 34 and holds the person's coordinates flattened
    in order, followed by zeros. *)
Theorem collect_detections_persons (ptss : list (list (float * float)))
  (rest : list PoseResult) :
  ptss ≠ [] →
  Forall (λ pts, (length pts ≤ 17)%nat) ptss →
  let persons := map (λ pts, mkPerson (wrapped_points pts)) ptss in
  ∃ vectors,
    collect_detections (mkPoseResult (Some persons) :: rest) = Ok vectors
    ∧ length vectors = length ptss
    ∧ Forall2 (λ pts v,
         length v = 34%nat
         ∧ v = flatten_points pts
               ++ repeat (PInt 0) (34 - length (flatten_points pts)))
         ptss vectors.
Proof.
  intros Hne Hle persons. exists (map normalized ptss). split; [|split].
  - unfold collect_detections, persons. cbn [keypoints].
    destruct ptss as [|pts ptss]; [done|].
    pose proof (persons_loop_wrapped (pts :: ptss) []) as Hloop.
    cbn [map] in *. rewrite Hloop. reflexivity.
  - by rewrite length_map.
  - apply Forall2_fmap_r, Forall_Forall2_diag.
    eapply Forall_impl; [exact Hle|]. intros pts Hpts. split.
    + by apply length_normalized.
    + unfold normalized. by rewrite length_flatten_points.
Qed.

Lemma collect_detections_persons_witness :
  ∃ vectors,
    collect_detections
      [mkPoseResult
         (Some [mkPerson (wrapped_points [(1.5, 2.5); (3, 4)]%float);
                mkPerson (wrapped_points [])])]
    = Ok vectors
    ∧ length vectors = 2%nat.
Proof.
  destruct (collect_detections_persons [[(1.5, 2.5); (3, 4)]%float; []] [])
    as (vectors & Hrun & Hlen & _).
  - discriminate.
  - repeat constructor; simpl; lia.
  - exists vectors. split; [exact Hrun|exact Hlen].
Defined.

(** C3. One person with one point, given as a flat list (shape (1, 2)): the
    normalization raises IndexError, where one vector of 34 values, the two
    coordinates and 32 zeros, is due; a person before it, well read, does
    not change that. *)
Theorem collect_detections_flat_single_point :
  collect_detections
    [mkPoseResult (Some [mkPerson (flat_points [(3, 4)%float])])]
  = Raise IndexError
  ∧ collect_detections
      [mkPoseResult (Some [mkPerson (wrapped_points [(1, 2)%float]);
                           mkPerson (flat_points [(3, 4)%float])])]
    = Raise IndexError
  ∧ normalized [(3, 4)%float] = [PFloat 3; PFloat 4] ++ repeat (PInt 0) 32
  ∧ length (normalized [(3, 4)%float]) = 34%nat.
Proof. repeat split; reflexivity. Qed.

(** C9. One person with a single point: given flat, shape (1, 2), the code
    takes the row for a wrapping level and fails on the scalars it then
    iterates over; given wrapped, shape (1, 1, 2), it returns the vector. *)
Theorem person_coords_single_point_shapes :
  person_coords (mkPerson (flat_points [(3, 4)%float])) = Raise IndexError
  ∧ person_coords (mkPerson (wrapped_points [(3, 4)%float]))
    = Ok ([PFloat 3; PFloat 4] ++ repeat (PInt 0) 32).
Proof. split; reflexivity. Qed.

(** ** read_annotations: proofs *)

Lemma raised_Raise {A : Type} (e : exn) : raised (@Raise A e).
Proof. by exists e. Qed.

Lemma not_raised_Ok {A : Type} (a : A) : ¬ raised (Ok a).
Proof. by intros [e He]. Qed.

Lemma split_nonempty_strip (s : string) (t : string) (ts : list string) :
  PyStr.split s = t :: ts → PyStr.is_empty s = false.
Proof. by destruct s. Qed.

Lemma read_annotations_body_blank (acc : list (string * Annotation))
  (line : string) :
  PyStr.strip line = "" → read_annotations_body acc line = Ok acc.
Proof. intros Hblank. unfold read_annotations_body. by rewrite Hblank. Qed.

Lemma read_annotations_body_tokens (acc : list (string * Annotation))
  (line v e t1 t2 t3 t4 : string) (extra : list string) (s1 e1 s2 e2 : Z) :
  PyStr.split (PyStr.strip line) = v :: e :: t1 :: t2 :: t3 :: t4 :: extra →
  PyStr.int t1 = Ok s1 → PyStr.int t2 = Ok e1 →
  PyStr.int t3 = Ok s2 → PyStr.int t4 = Ok e2 →
  read_annotations_body acc line
  = Ok (dict_set acc v
          (mkAnnotation e
             ((if decide (s1 ≠ -1 ∧ e1 ≠ -1) then [(s1, e1)] else [])
              ++ (if decide (s2 ≠ -1 ∧ e2 ≠ -1) then [(s2, e2)] else [])))).
Proof.
  intros Hsplit H1 H2 H3 H4. unfold read_annotations_body.
  rewrite (split_nonempty_strip _ _ _ Hsplit), Hsplit. simpl.
  rewrite H1. simpl. rewrite H2. simpl. rewrite H3. simpl. rewrite H4. simpl.
  do 3 f_equal.
  destruct (Z.eqb_spec s1 (-1)), (Z.eqb_spec e1 (-1)),
    (Z.eqb_spec s2 (-1)), (Z.eqb_spec e2 (-1));
    repeat case_decide; simpl; try reflexivity; exfalso; lia.
Qed.

Lemma read_annotations_loop_skip (lines1 lines2 : list string) (blank : string)
  (acc : list (string * Annotation)) :
  PyStr.strip blank = "" →
  read_annotations_loop (lines1 ++ blank :: lines2) acc
  = read_annotations_loop (lines1 ++ lines2) acc.
Proof.
  intros Hblank. revert acc.
  induction lines1 as [|l lines1 IH]; intros acc; simpl.
  - by rewrite read_annotations_body_blank.
  - destruct (read_annotations_body acc l) as [acc'|err]; simpl; [apply IH|done].
Qed.

(** C4. Blank lines are skipped. A non-blank line gives its video an entry
    with zero, one or two intervals: (start1, end1) is in it exactly when
    start1 and end1 both differ from -1, and (start2, end2) likewise,
    independently, in this order. So -1 -1 10 20 gives [(10, 20)], and
    -1 -1 -1 -1 gives the empty list. *)
Theorem read_annotations_intervals :
  (∀ lines1 lines2 blank acc,
     PyStr.strip blank = "" →
     read_annotations_loop (lines1 ++ blank :: lines2) acc
     = read_annotations_loop (lines1 ++ lines2) acc)
  ∧ (∀ acc line v e t1 t2 t3 t4 s1 e1 s2 e2,
       PyStr.split (PyStr.strip line) = [v; e; t1; t2; t3; t4] →
       PyStr.int t1 = Ok s1 → PyStr.int t2 = Ok e1 →
       PyStr.int t3 = Ok s2 → PyStr.int t4 = Ok e2 →
       ∃ ivs,
         read_annotations_body acc line
         = Ok (dict_set acc v (mkAnnotation e ivs))
         ∧ ivs = (if decide (s1 ≠ -1 ∧ e1 ≠ -1) then [(s1, e1)] else [])
                 ++ (if decide (s2 ≠ -1 ∧ e2 ≠ -1) then [(s2, e2)] else [])
         ∧ (length ivs ≤ 2)%nat
         ∧ (s1 = -1 → e1 = -1 → s2 = 10 → e2 = 20 → ivs = [(10, 20)])
         ∧ (s1 = -1 → e1 = -1 → s2 = -1 → e2 = -1 → ivs = []))
  ∧ read_annotations
      ("a.mp4 Fighting -1 -1 10 20" +:+ nl +:+ nl +:+ "  " +:+ nl
       +:+ "b.mp4 Normal -1 -1 -1 -1" +:+ nl)
    = Ok [("a.mp4", mkAnnotation "Fighting" [(10, 20)]);
          ("b.mp4", mkAnnotation "Normal" [])].
Proof.
  split; [|split].
  - intros. by apply read_annotations_loop_skip.
  - intros acc line v e t1 t2 t3 t4 s1 e1 s2 e2 Hsplit H1 H2 H3 H4.
    eexists. split; [|split; [reflexivity|]].
    + by apply (read_annotations_body_tokens acc line v e t1 t2 t3 t4 []).
    + split; [|split].
      * repeat case_decide; simpl; lia.
      * by intros -> -> -> ->.
      * by intros -> -> -> ->.
  - vm_compute. reflexivity.
Qed.

Lemma read_annotations_intervals_witness :
  read_annotations_body [] ("a.mp4 Fighting -1 -1 10 20" +:+ nl)
  = Ok [("a.mp4", mkAnnotation "Fighting" [(10, 20)])].
Proof.
  destruct read_annotations_intervals as (_ & Hline & _).
  destruct (Hline [] ("a.mp4 Fighting -1 -1 10 20" +:+ nl)
              "a.mp4" "Fighting" "-1" "-1" "10" "20" (-1) (-1) 10 20
              eq_refl eq_refl eq_refl eq_refl eq_refl)
    as (ivs & Hrun & _ & _ & Hten & _).
  rewrite Hrun, Hten; reflexivity.
Defined.

Lemma read_annotations_body_raised (acc : list (string * Annotation))
  (line : string) :
  raised (read_annotations_body acc line) ↔ short_or_non_integer line.
Proof.
  unfold read_annotations_body, short_or_non_integer.
  destruct (PyStr.strip line) as [|c s] eqn:Hstrip; simpl PyStr.is_empty; cbv iota.
  { split; [intros H; by apply not_raised_Ok in H|by intros [? _]]. }
  set (parts := PyStr.split (String c s)).
  assert (Hne : String c s ≠ "") by done.
  destruct parts as [|p0 [|p1 [|p2 [|p3 [|p4 [|p5 rest]]]]]]; simpl.
  1-2: split; [intros _; split; [done|left; lia]|intros _; apply raised_Raise].
  1-4: repeat
         match goal with
         | |- context [PyStr.int ?t] => destruct (PyStr.int t); simpl
         end;
       (split; [intros _; split; [done|left; lia]|intros _; apply raised_Raise]).
  destruct (PyStr.int p2) as [s1|x1] eqn:H2; simpl;
    [destruct (PyStr.int p3) as [e1|x2] eqn:H3; simpl;
     [destruct (PyStr.int p4) as [s2|x3] eqn:H4; simpl;
      [destruct (PyStr.int p5) as [e2|x4] eqn:H5; simpl|]|]|].
  - split; [intros H; by apply not_raised_Ok in H|].
    intros [_ [Hlen|(i & t & Hi & Hl & Hr)]]; [lia|].
    destruct i as [|[|[|[|[|[|i]]]]]]; try lia; simpl in Hl;
      injection Hl as <-; exfalso;
      rewrite ?H2, ?H3, ?H4, ?H5 in Hr; by apply not_raised_Ok in Hr.
  - split; [|intros _; apply raised_Raise]. intros _. split; [done|right].
    exists 5%nat, p5. rewrite H5. split; [lia|split; [done|apply raised_Raise]].
  - split; [|intros _; apply raised_Raise]. intros _. split; [done|right].
    exists 4%nat, p4. rewrite H4. split; [lia|split; [done|apply raised_Raise]].
  - split; [|intros _; apply raised_Raise]. intros _. split; [done|right].
    exists 3%nat, p3. rewrite H3. split; [lia|split; [done|apply raised_Raise]].
  - split; [|intros _; apply raised_Raise]. intros _. split; [done|right].
    exists 2%nat, p2. rewrite H2. split; [lia|split; [done|apply raised_Raise]].
Qed.

Lemma read_annotations_loop_raised (lines : list string)
  (acc : list (string * Annotation)) :
  raised (read_annotations_loop lines acc)
  ↔ ∃ line, line ∈ lines ∧ short_or_non_integer line.
Proof.
  revert acc. induction lines as [|l lines IH]; intros acc; simpl.
  - split; [intros H; by apply not_raised_Ok in H|].
    intros (line & Hin & _). by apply elem_of_nil in Hin.
  - pose proof (read_annotations_body_raised acc l) as Hbody.
    destruct (read_annotations_body acc l) as [acc'|err]; simpl.
    + rewrite IH. split; intros (line & Hin & Hbad); exists line.
      * split; [by right|done].
      * split; [|done]. apply elem_of_cons in Hin as [->|Hin]; [|done].
        apply Hbody in Hbad. by apply not_raised_Ok in Hbad.
    + split; [|intros _; apply raised_Raise]. intros _. exists l.
      split; [left|]. apply Hbody, raised_Raise.
Qed.

(** C5, as stated, fails: a line of seven tokens is read like its first six. *)
Lemma read_annotations_seven_tokens :
  let line := "v.mp4 Fighting 1 2 3 4 extra" in
  length (PyStr.split (PyStr.strip line)) = 7%nat
  ∧ read_annotations line
    = Ok [("v.mp4", mkAnnotation "Fighting" [(1, 2); (3, 4)])].
Proof. split; vm_compute; reflexivity. Qed.

Lemma unsigned_int_raise (s : string) (e : exn) :
  PyStr.unsigned_int s = Raise e → e = ValueError.
Proof.
  unfold PyStr.unsigned_int.
  destruct (PyStr.digits_from s 0 false 0) as [[v count]|]; [|congruence].
  destruct (PyStr.int_max_str_digits <? count)%nat; congruence.
Qed.

Lemma int_raise (s : string) (e : exn) :
  PyStr.int s = Raise e → e = ValueError.
Proof.
  unfold PyStr.int.
  destruct (PyStr.int_rstrip (PyStr.int_lstrip s)) as [|c r].
  - apply unsigned_int_raise.
  - destruct c as [[] [] [] [] [] [] [] []];
      try apply unsigned_int_raise.
    destruct (PyStr.unsigned_int r) as [v|e'] eqn:Hr; simpl; [done|].
    intros [= <-]. by eapply unsigned_int_raise.
Qed.

Lemma read_annotations_body_exn (acc : list (string * Annotation))
  (line : string) (e : exn) :
  read_annotations_body acc line = Raise e → e = IndexError ∨ e = ValueError.
Proof.
  unfold read_annotations_body.
  destruct (PyStr.strip line) as [|c s]; [done|].
  simpl PyStr.is_empty. cbv iota.
  destruct (PyStr.split (String c s))
    as [|p0 [|p1 [|p2 [|p3 [|p4 [|p5 rest]]]]]]; simpl;
    repeat
      match goal with
      | |- context [PyStr.int ?t] =>
          let H := fresh "Hint" in destruct (PyStr.int t) eqn:H; simpl
      end;
    intros Hr; try discriminate; injection Hr as <-;
    first [ by left | right; by eapply int_raise ].
Qed.

Lemma read_annotations_loop_exn (lines : list string)
  (acc : list (string * Annotation)) (e : exn) :
  read_annotations_loop lines acc = Raise e → e = IndexError ∨ e = ValueError.
Proof.
  revert acc. induction lines as [|l lines IH]; intros acc; simpl; [done|].
  destruct (read_annotations_body acc l) as [acc'|e'] eqn:Hbody; simpl.
  - apply IH.
  - intros [= <-]. by eapply read_annotations_body_exn.
Qed.

(** C5, amended. [read_annotations] raises, and so returns no mapping,
    exactly when some non-blank line of the text has fewer than six tokens
    or a third to sixth token that [int] rejects; such a line is never
    skipped, and the exception is an IndexError or a ValueError. Tokens
    after the sixth are not looked at: a line with more than six tokens is
    read like its first six. *)
Theorem read_annotations_raises (text : string) :
  (raised (read_annotations text)
   ↔ ∃ line, line ∈ PyStr.file_lines text ∧ short_or_non_integer line)
  ∧ (∀ e, read_annotations text = Raise e → e = IndexError ∨ e = ValueError)
  ∧ (∀ acc line v ev t1 t2 t3 t4 extra s1 e1 s2 e2,
       PyStr.split (PyStr.strip line)
       = v :: ev :: t1 :: t2 :: t3 :: t4 :: extra →
       PyStr.int t1 = Ok s1 → PyStr.int t2 = Ok e1 →
       PyStr.int t3 = Ok s2 → PyStr.int t4 = Ok e2 →
       read_annotations_body acc line
       = Ok (dict_set acc v
               (mkAnnotation ev
                  ((if decide (s1 ≠ -1 ∧ e1 ≠ -1) then [(s1, e1)] else [])
                   ++ (if decide (s2 ≠ -1 ∧ e2 ≠ -1) then [(s2, e2)]
                       else []))))).
Proof.
  split; [apply read_annotations_loop_raised|]. split.
  - intros e. apply read_annotations_loop_exn.
  - intros. by eapply read_annotations_body_tokens.
Qed.

Lemma read_annotations_raises_witness :
  let text := "a.mp4 Fighting 1 2 3 4" +:+ nl +:+ "b.mp4 Normal -1 -1 -1" in
  raised (read_annotations text)
  ∧ read_annotations text = Raise IndexError.
Proof.
  intros text.
  destruct (read_annotations_raises text) as (Hraises & Hkind & _).
  split; [|reflexivity].
  apply Hraises. exists "b.mp4 Normal -1 -1 -1". split.
  - vm_compute. right. left.
  - split; [discriminate|]. left. vm_compute. lia.
Defined.

(** ** The pipeline: proofs *)

Lemma collect_detections_nonempty (results : list PoseResult)
  (detections : list (list pyval)) :
  collect_detections results = Ok detections → detections ≠ [].
Proof.
  unfold collect_detections. intros Hrun Hnil. subst detections.
  destruct (match results with [] => _ | _ => _ end) as [[|v vs]|err];
    simpl in Hrun; discriminate.
Qed.

Lemma header_columns : header = map PStr column_names.
Proof. vm_compute. reflexivity. Qed.

Lemma row_key_frame_rows_from (event_name : string) (intervals : list (Z * Z))
  (n : Z) (detections : list (list pyval)) (k : nat) :
  map row_key
    (imap (λ person_id keypoints,
             [PInt n; PInt (Z.of_nat (k + person_id))] ++ keypoints
             ++ [PInt (frame_label event_name n intervals)]) detections)
  = map (λ person_id, Some (n, Z.of_nat person_id)) (seq k (length detections)).
Proof.
  revert k. induction detections as [|d ds IH]; intros k; [done|].
  rewrite imap_cons. cbn [map length seq]. f_equal.
  - simpl. by rewrite Nat.add_0_r.
  - rewrite <- (IH (S k)). f_equal. apply imap_ext. intros i x _. simpl.
    by rewrite Nat.add_succ_r.
Qed.

Lemma row_key_frame_rows (event_name : string) (intervals : list (Z * Z))
  (n : Z) (detections : list (list pyval)) :
  map row_key (frame_rows event_name intervals n detections)
  = map (λ person_id, Some (n, Z.of_nat person_id)) (seq 0 (length detections)).
Proof. apply (row_key_frame_rows_from event_name intervals n detections 0). Qed.

Lemma map_imap {A B C : Type} (g : B → C) (f : nat → A → B) (l : list A) :
  map g (imap f l) = imap (λ i x, g (f i x)) l.
Proof. apply (fmap_imap f g l). Qed.

Lemma remove_first_head (path : string) (l : list string) :
  remove_first path (path :: l) = l.
Proof. simpl. by rewrite String.eqb_refl. Qed.

(** After one more frame: the rows of the frames that follow are numbered
    from the new count. *)
Ltac shift_frame_count c :=
  rewrite imap_cons; cbn [concat length];
  rewrite <- app_assoc;
  replace (c + Z.of_nat 1) with (c + 1) by lia;
  match goal with
  | |- context [c + 1 + Z.of_nat (S (length ?l))] =>
      replace (c + 1 + Z.of_nat (S (length l)))
        with (c + Z.of_nat (S (S (length l)))) by lia
  | |- context [c + 1 + Z.of_nat (length ?l)] =>
      replace (c + 1 + Z.of_nat (length l))
        with (c + Z.of_nat (S (length l))) by lia
  end;
  match goal with
  | |- context [imap ?f ?l] =>
      match f with
      | context [c + 1 + _] =>
          match goal with
          | |- context [imap (?g ∘ S) l] =>
              replace (imap f l) with (imap (g ∘ S) l)
                by (apply imap_ext; intros ? ? _; simpl; f_equal; lia)
          end
      end
  end;
  reflexivity.

Section PipelineProofs.

Context {Frame : Type}.
Context (cvtColor : Frame → Frame).
Context (pose_model : Frame → result (list PoseResult)).
Context (video_store : string → option (list Frame)).
Context (os_path_join : string → string → string).
Context (os_path_splitext : string → string * string).

#[local] Abbreviation detect := (detect_keypoints cvtColor pose_model).
#[local] Abbreviation run_frames := (frame_loop cvtColor pose_model).
#[local] Abbreviation run_video := (process_video cvtColor pose_model video_store).
#[local] Abbreviation run_items :=
  (main_loop cvtColor pose_model video_store os_path_join os_path_splitext).

Lemma detect_keypoints_nonempty (frame : Frame)
  (detections : list (list pyval)) :
  detect frame = Ok detections → detections ≠ [].
Proof.
  unfold detect_keypoints.
  destruct (pose_model (cvtColor frame)) as [results|err]; simpl; [|done].
  apply collect_detections_nonempty.
Qed.

Lemma frame_loop_all_detected (event_name : string)
  (intervals : list (Z * Z)) (frames : list Frame)
  (dets : list (list (list pyval))) (frame_count : Z)
  (rows : list (list pyval)) :
  Forall2 (λ frame d, detect frame = Ok d) frames dets →
  run_frames event_name intervals frames frame_count rows
  = (rows ++ concat (imap (λ i d,
                       frame_rows event_name intervals
                         (frame_count + Z.of_nat (S i)) d) dets),
     frame_count + Z.of_nat (length frames), Ok tt).
Proof.
  intros Hdet. revert frame_count rows.
  induction Hdet as [|frame d frames dets Hframe _ IH];
    intros frame_count rows.
  - simpl. by rewrite app_nil_r, Z.add_0_r.
  - cbn [frame_loop]. rewrite Hframe, IH. shift_frame_count frame_count.
Qed.

Lemma frame_loop_detector_error (event_name : string)
  (intervals : list (Z * Z)) (good : list Frame) (bad : Frame)
  (rest : list Frame) (dets : list (list (list pyval))) (e : exn)
  (frame_count : Z) (rows : list (list pyval)) :
  Forall2 (λ frame d, detect frame = Ok d) good dets →
  detect bad = Raise e →
  run_frames event_name intervals (good ++ bad :: rest) frame_count rows
  = (rows ++ concat (imap (λ i d,
                       frame_rows event_name intervals
                         (frame_count + Z.of_nat (S i)) d) dets),
     frame_count + Z.of_nat (S (length good)), Raise e).
Proof.
  intros Hdet Hbad. revert frame_count rows.
  induction Hdet as [|frame d frames dets Hframe _ IH];
    intros frame_count rows.
  - simpl. rewrite Hbad. by rewrite app_nil_r.
  - cbn [frame_loop app]. rewrite Hframe, IH. shift_frame_count frame_count.
Qed.

(** A detector error in the middle of a video: the exception leaves
    [process_video], the rows written so far stay in the file, and the
    capture is still open. *)
Lemma process_video_detector_error (video_path event_name : string)
  (intervals : list (Z * Z)) (output_csv_path : string) (w : World)
  (good : list Frame) (bad : Frame) (rest : list Frame)
  (dets : list (list (list pyval))) (e : exn) :
  video_store video_path = Some (good ++ bad :: rest) →
  Forall2 (λ frame d, detect frame = Ok d) good dets →
  detect bad = Raise e →
  ∃ w',
    run_video video_path event_name intervals output_csv_path w
    = (w', Raise e)
    ∧ open_captures w' = video_path :: open_captures w
    ∧ console w' = console w.
Proof.
  intros Hstore Hdet Hbad. unfold process_video. rewrite Hstore.
  rewrite (frame_loop_detector_error _ _ _ _ _ dets e); [|done..].
  eexists. split; [reflexivity|]. done.
Qed.

(** C6. For a video that opens and whose frames the detector all handles,
    the table is the header row with the 37 column names, then the rows of
    frame 1, of frame 2, and so on to the last frame; the rows of a frame
    are one per person, person 0 first, and every frame has at least
    one. *)
Theorem process_video_table (video_path event_name : string)
  (intervals : list (Z * Z)) (output_csv_path : string) (w : World)
  (frames : list Frame) (dets : list (list (list pyval))) :
  video_store video_path = Some frames →
  Forall2 (λ frame d, detect frame = Ok d) frames dets →
  ∃ w' rows,
    run_video video_path event_name intervals output_csv_path w
    = (w', Ok tt)
    ∧ csv_files w' !! output_csv_path = Some (header :: rows)
    ∧ header = map PStr column_names
    ∧ rows = concat (imap (λ i d,
                       frame_rows event_name intervals (Z.of_nat (S i)) d)
                       dets)
    ∧ map row_key rows
      = concat (imap (λ i d,
                  map (λ person_id,
                         Some (Z.of_nat (S i), Z.of_nat person_id))
                    (seq 0 (length d))) dets)
    ∧ length dets = length frames
    ∧ Forall (λ d, d ≠ []) dets.
Proof.
  intros Hstore Hdet. unfold process_video. rewrite Hstore.
  rewrite (frame_loop_all_detected _ _ _ dets); [|done].
  eexists _, _. split; [reflexivity|]. split; [|split; [|split; [|split]]].
  - cbn [csv_files print release write_csv]. cbn [app].
    apply lookup_insert_eq.
  - apply header_columns.
  - reflexivity.
  - rewrite concat_map, map_imap. f_equal.
    apply imap_ext. intros i d _. apply row_key_frame_rows.
  - split; [symmetry; by eapply Forall2_length|].
    clear Hstore. induction Hdet as [|frame d ? ? Hframe _ IH]; [done|].
    constructor; [by eapply detect_keypoints_nonempty|done].
Qed.

(** C10. A video that opens and gives no frame: the table is written and
    is the header row alone, and the video is reported as processed, with
    zero frames. *)
Theorem process_video_no_frames (video_path event_name : string)
  (intervals : list (Z * Z)) (output_csv_path : string) (w : World) :
  video_store video_path = Some [] →
  ∃ w',
    run_video video_path event_name intervals output_csv_path w
    = (w', Ok tt)
    ∧ csv_files w' !! output_csv_path = Some [header]
    ∧ console w'
      = console w ++ [InfoProcessed video_path output_csv_path 0]
    ∧ open_captures w' = open_captures w.
Proof.
  intros Hstore. unfold process_video. rewrite Hstore. simpl.
  eexists. split; [reflexivity|]. simpl. split; [|split].
  - apply lookup_insert_eq.
  - done.
  - by rewrite String.eqb_refl.
Qed.

Lemma main_loop_app (items1 items2 : list (string * Annotation))
  (w : World) :
  run_items (items1 ++ items2) w
  = match run_items items1 w with
    | (w', Ok _) => run_items items2 w'
    | (w', Raise e) => (w', Raise e)
    end.
Proof.
  revert w. induction items1 as [|[video_name info] items1 IH]; intros w.
  - done.
  - cbn [app main_loop].
    destruct (process_video _ _ _ _ _ _ _ _) as [w' [[]|e]]; [apply IH|done].
Qed.

(** C7. A video that cannot be opened: [process_video] prints the
    diagnostic and returns without writing any table, and the loop of
    [main] goes on with the videos that follow, whatever came before. *)
Theorem process_video_cannot_open (video_name : string) (info : Annotation)
  (before rest : list (string * Annotation))
  (output_csv_path : string) (w w0 : World) :
  let video_path := os_path_join dataset_dir video_name in
  video_store video_path = None →
  run_items before w = (w0, Ok tt) →
  let w1 := print w0 (InfoStart video_name (event info)) in
  let w2 := print w1 (ErrorCannotOpen video_path) in
  run_video video_path (event info) (intervals info) output_csv_path w1
  = (w2, Ok tt)
  ∧ csv_files w2 = csv_files w1
  ∧ open_captures w2 = open_captures w1
  ∧ console w2 = console w1 ++ [ErrorCannotOpen video_path]
  ∧ run_items (before ++ (video_name, info) :: rest) w = run_items rest w2.
Proof.
  intros video_path Hstore Hbefore w1 w2.
  assert (Hrun : ∀ out,
    run_video video_path (event info) (intervals info) out w1 = (w2, Ok tt)).
  { intros out. unfold process_video. by rewrite Hstore. }
  split; [apply Hrun|]. repeat split.
  rewrite main_loop_app, Hbefore. cbn [main_loop].
  fold video_path. fold w1. by rewrite Hrun.
Qed.

(** On a run without detector error the capture is released. *)
Lemma process_video_releases_on_success (video_path event_name : string)
  (intervals : list (Z * Z)) (output_csv_path : string) (w : World)
  (frames : list Frame) (dets : list (list (list pyval))) :
  video_store video_path = Some frames →
  Forall2 (λ frame d, detect frame = Ok d) frames dets →
  open_captures
    (run_video video_path event_name intervals output_csv_path w).1
  = open_captures w.
Proof.
  intros Hstore Hdet. unfold process_video. rewrite Hstore.
  rewrite (frame_loop_all_detected _ _ _ dets); [|done].
  simpl. by rewrite String.eqb_refl.
Qed.

End PipelineProofs.

(** ** The pipeline on the fixture *)

Lemma process_video_table_witness :
  ∃ w' rows,
    process_video Fixture.cvtColor Fixture.pose_model Fixture.video_store
      "dataset/a.mp4" "Fighting" [(2, 5)] "csv/a.csv" Fixture.empty_world
    = (w', Ok tt)
    ∧ csv_files w' !! "csv/a.csv" = Some (header :: rows)
    ∧ map row_key rows = [Some (1, 0); Some (2, 0); Some (2, 1)].
Proof.
  destruct (process_video_table
              Fixture.cvtColor Fixture.pose_model Fixture.video_store
              "dataset/a.mp4" "Fighting" [(2, 5)] "csv/a.csv"
              Fixture.empty_world
              [Fixture.nobody; Fixture.two_persons]
              [[repeat (PInt 0) 34];
               [normalized [(1.5, 2.5)%float]; normalized []]])
    as (w' & rows & Hrun & Hcsv & _ & _ & Hkeys & _).
  - reflexivity.
  - repeat constructor.
  - exists w', rows. split; [exact Hrun|]. split; [exact Hcsv|exact Hkeys].
Defined.

Lemma process_video_no_frames_witness :
  ∃ w',
    process_video Fixture.cvtColor Fixture.pose_model Fixture.video_store
      "dataset/empty.mp4" "Normal" [] "csv/empty.csv" Fixture.empty_world
    = (w', Ok tt)
    ∧ csv_files w' !! "csv/empty.csv" = Some [header]
    ∧ console w'
      = [InfoProcessed "dataset/empty.mp4" "csv/empty.csv" 0]
    ∧ open_captures w' = [].
Proof.
  apply (process_video_no_frames
           Fixture.cvtColor Fixture.pose_model Fixture.video_store
           "dataset/empty.mp4" "Normal" [] "csv/empty.csv"
           Fixture.empty_world).
  reflexivity.
Defined.

Lemma process_video_cannot_open_witness :
  let run :=
    main_loop Fixture.cvtColor Fixture.pose_model Fixture.video_store
      Fixture.os_path_join Fixture.os_path_splitext
      ([("empty.mp4", mkAnnotation "Normal" [])]
       ++ ("missing.mp4", mkAnnotation "Fighting" [(1, 2)])
       :: [("a.mp4", mkAnnotation "Fighting" [(2, 5)])])
      Fixture.empty_world in
  run.2 = Ok tt
  ∧ csv_files run.1 !! "csv/missing.csv" = None
  ∧ (length <$> csv_files run.1 !! "csv/a.csv") = Some 4%nat
  ∧ ErrorCannotOpen "dataset/missing.mp4" ∈ console run.1.
Proof.
  intros run. subst run.
  destruct (process_video_cannot_open
              Fixture.cvtColor Fixture.pose_model Fixture.video_store
              Fixture.os_path_join Fixture.os_path_splitext
              "missing.mp4" (mkAnnotation "Fighting" [(1, 2)])
              [("empty.mp4", mkAnnotation "Normal" [])]
              [("a.mp4", mkAnnotation "Fighting" [(2, 5)])]
              "csv/missing.csv" Fixture.empty_world _ eq_refl eq_refl)
    as (_ & _ & _ & _ & Hloop).
  rewrite Hloop. vm_compute.
  split; [reflexivity|]. split; [reflexivity|]. split; [reflexivity|].
  do 3 right. left.
Defined.

(** C8. A video that opens and on whose second frame the detector raises:
    the exception leaves [process_video], the table holds the header and the
    row of frame 1, and the capture has not been released. *)
Theorem process_video_error_keeps_capture :
  let run :=
    process_video Fixture.cvtColor Fixture.pose_model Fixture.video_store
      "dataset/bad.mp4" "Fighting" [(1, 3)] "csv/bad.csv"
      Fixture.empty_world in
  run.2 = Raise (DetectorError 0)
  ∧ open_captures run.1 = ["dataset/bad.mp4"]
  ∧ (length <$> csv_files run.1 !! "csv/bad.csv") = Some 2%nat
  ∧ console run.1 = [].
Proof. vm_compute. repeat split. Qed.


(** ** More on read_annotations: the dictionary it builds *)

Lemma dict_set_keys {V : Type} (d : list (string * V)) (k : string) (v : V) :
  map fst (dict_set d k v)
  = if decide (k ∈ map fst d) then map fst d else map fst d ++ [k].
Proof.
  induction d as [|[k' v'] d IH]; [done|]. cbn [dict_set map fst].
  destruct (String.eqb_spec k' k) as [->|Hne]; cbn [map fst].
  - destruct (decide (k ∈ k :: map fst d)) as [_|Hout]; [done|].
    exfalso. apply Hout. left.
  - rewrite IH.
    destruct (decide (k ∈ map fst d)) as [Hin|Hout],
      (decide (k ∈ k' :: map fst d)) as [Hin'|Hout']; try done.
    + exfalso. apply Hout'. by right.
    + exfalso. apply elem_of_cons in Hin' as [->|Hin']; [done|].
      by apply Hout.
Qed.

Lemma dict_get_set_eq {V : Type} (d : list (string * V)) (k : string) (v : V) :
  dict_get (dict_set d k v) k = Some v.
Proof.
  induction d as [|[k' v'] d IH]; simpl.
  - by rewrite String.eqb_refl.
  - destruct (String.eqb_spec k' k) as [->|Hne]; simpl.
    + by rewrite String.eqb_refl.
    + destruct (String.eqb_spec k' k) as [->|_]; [done|exact IH].
Qed.

Lemma dict_get_set_ne {V : Type} (d : list (string * V)) (k k' : string)
  (v : V) :
  k ≠ k' → dict_get (dict_set d k v) k' = dict_get d k'.
Proof.
  intros Hne. induction d as [|[k0 v0] d IH]; simpl.
  - destruct (String.eqb_spec k k') as [->|_]; done.
  - destruct (String.eqb_spec k0 k) as [->|Hne0]; simpl.
    + destruct (String.eqb_spec k k') as [->|_]; done.
    + destruct (String.eqb_spec k0 k') as [->|_]; [done|exact IH].
Qed.

Lemma dict_set_NoDup {V : Type} (d : list (string * V)) (k : string) (v : V) :
  NoDup (map fst d) → NoDup (map fst (dict_set d k v)).
Proof.
  intros Hnd. rewrite dict_set_keys.
  destruct (decide (k ∈ map fst d)) as [_|Hin]; [done|].
  apply NoDup_app. split; [done|]. split; [|apply NoDup_singleton].
  intros x Hx Hk. apply list_elem_of_singleton in Hk as ->. by apply Hin.
Qed.

(** What one line does, whatever the dictionary so far: it is skipped,
    or it raises, or it writes the entry of its video. *)
Lemma read_annotations_body_shape (line : string) :
  (line_video line = None ∧ ∀ acc, read_annotations_body acc line = Ok acc)
  ∨ (∃ e, ∀ acc, read_annotations_body acc line = Raise e)
  ∨ (∃ v ann, line_video line = Some v
       ∧ ∀ acc, read_annotations_body acc line = Ok (dict_set acc v ann)).
Proof.
  unfold read_annotations_body, line_video.
  destruct (PyStr.strip line) as [|c s]; [left; by split|].
  simpl PyStr.is_empty. cbv iota.
  destruct (PyStr.split (String c s))
    as [|p0 [|p1 [|p2 [|p3 [|p4 [|p5 rest]]]]]]; simpl;
    repeat
      match goal with
      | |- context [PyStr.int ?t] => destruct (PyStr.int t); simpl
      end;
    first [ right; left; eexists; intros; reflexivity
          | right; right; eexists _, _; split; [reflexivity|];
            intros; reflexivity ].
Qed.

Lemma read_annotations_loop_app (lines1 lines2 : list string)
  (acc : list (string * Annotation)) :
  read_annotations_loop (lines1 ++ lines2) acc
  = (acc1 ← read_annotations_loop lines1 acc;
     read_annotations_loop lines2 acc1).
Proof.
  revert acc. induction lines1 as [|l lines1 IH]; intros acc; simpl; [done|].
  destruct (read_annotations_body acc l) as [acc'|e]; simpl; [apply IH|done].
Qed.

Lemma read_annotations_loop_keys (lines : list string)
  (acc d : list (string * Annotation)) :
  read_annotations_loop lines acc = Ok d →
  (NoDup (map fst acc) → NoDup (map fst d))
  ∧ (map fst acc `prefix_of` map fst d)
  ∧ ∀ v, v ∈ map fst d
         ↔ v ∈ map fst acc ∨ ∃ line, line ∈ lines ∧ line_video line = Some v.
Proof.
  revert acc. induction lines as [|l lines IH]; intros acc Hrun; simpl in Hrun.
  - injection Hrun as <-. split; [done|]. split; [done|]. intros v.
    split; [by left|]. intros [Hin|(line & Hin & _)]; [done|].
    by apply elem_of_nil in Hin.
  - destruct (read_annotations_body_shape l)
      as [[Hnone Hskip]|[[e Hraise]|(k & ann & Hvideo & Hset)]].
    + rewrite Hskip in Hrun. simpl in Hrun.
      destruct (IH _ Hrun) as (Hnd & Hpre & Hkeys).
      split; [done|]. split; [done|]. intros v. rewrite Hkeys.
      split; intros [Hin|(line & Hin & Hline)]; try by left.
      * right. exists line. split; [by right|done].
      * apply elem_of_cons in Hin as [->|Hin]; [congruence|].
        right. by exists line.
    + rewrite Hraise in Hrun. discriminate.
    + rewrite Hset in Hrun. simpl in Hrun.
      destruct (IH _ Hrun) as (Hnd & Hpre & Hkeys).
      assert (Hacc : map fst acc `prefix_of` map fst (dict_set acc k ann)).
      { rewrite dict_set_keys. case_decide; [done|]. by apply prefix_app_r. }
      split; [|split].
      * intros Hacc_nd. by apply Hnd, dict_set_NoDup.
      * by etrans.
      * intros v. rewrite Hkeys, dict_set_keys.
        split.
        -- intros [Hin|(line & Hin & Hline)].
           ++ case_decide as Hk; [by left|].
              apply elem_of_app in Hin as [Hin|Hin]; [by left|].
              apply list_elem_of_singleton in Hin as ->.
              right. exists l. split; [left|done].
           ++ right. exists line. split; [by right|done].
        -- intros [Hin|(line & Hin & Hline)].
           ++ left. case_decide; [done|]. apply elem_of_app. by left.
           ++ apply elem_of_cons in Hin as [->|Hin].
              ** left. assert (v = k) as -> by congruence.
                 case_decide; [done|]. apply elem_of_app. right. left.
              ** right. by exists line.
Qed.

Lemma read_annotations_loop_get (lines : list string)
  (acc d : list (string * Annotation)) (v : string) :
  read_annotations_loop lines acc = Ok d →
  (∀ line, line ∈ lines → line_video line ≠ Some v) →
  dict_get d v = dict_get acc v.
Proof.
  revert acc. induction lines as [|l lines IH]; intros acc Hrun Hother;
    simpl in Hrun.
  - by injection Hrun as <-.
  - assert (Hrest : ∀ line, line ∈ lines → line_video line ≠ Some v).
    { intros line Hin. apply Hother. by right. }
    destruct (read_annotations_body_shape l)
      as [[Hnone Hskip]|[[e Hraise]|(k & ann & Hvideo & Hset)]].
    + rewrite Hskip in Hrun. by apply IH.
    + rewrite Hraise in Hrun. discriminate.
    + rewrite Hset in Hrun. simpl in Hrun. rewrite (IH _ Hrun Hrest).
      apply dict_get_set_ne. intros ->. by apply (Hother l); [left|].
Qed.

(** X1. The mapping [read_annotations] returns has one entry per distinct
    video: no name occurs twice among its keys, and a name is a key exactly
    when it is the first token of some line of the text. *)
Theorem read_annotations_one_entry_per_video (text : string)
  (d : list (string * Annotation)) :
  read_annotations text = Ok d →
  NoDup (map fst d)
  ∧ ∀ v, v ∈ map fst d
         ↔ ∃ line, line ∈ PyStr.file_lines text ∧ line_video line = Some v.
Proof.
  intros Hrun. destruct (read_annotations_loop_keys _ _ _ Hrun)
    as (Hnd & _ & Hkeys).
  split; [apply Hnd, NoDup_nil_2|]. intros v. rewrite Hkeys.
  split; [|by right]. intros [Hin|Hline]; [|done].
  by apply elem_of_nil in Hin.
Qed.

Lemma read_annotations_one_entry_per_video_witness :
  NoDup (map fst [("a.mp4", mkAnnotation "Normal" [(3, 4)]);
                  ("b.mp4", mkAnnotation "Normal" [])]).
Proof.
  apply (read_annotations_one_entry_per_video
           ("a.mp4 Fighting 1 2 -1 -1" +:+ nl +:+ "b.mp4 Normal -1 -1 -1 -1"
            +:+ nl +:+ "a.mp4 Normal 3 4 -1 -1")).
  vm_compute. reflexivity.
Defined.

(** X2. When a video is named by several lines, the entry returned for it is
    the one of the last such line: its event and its intervals replace the
    earlier ones. *)
Theorem read_annotations_last_line_wins (text : string)
  (lines1 lines2 : list string) (line v : string)
  (d : list (string * Annotation)) :
  read_annotations text = Ok d →
  PyStr.file_lines text = lines1 ++ line :: lines2 →
  line_video line = Some v →
  (∀ l, l ∈ lines2 → line_video l ≠ Some v) →
  ∃ ann,
    (∀ acc, read_annotations_body acc line = Ok (dict_set acc v ann))
    ∧ dict_get d v = Some ann.
Proof.
  intros Hrun Hlines Hvideo Hlast. unfold read_annotations in Hrun.
  rewrite Hlines, read_annotations_loop_app in Hrun.
  destruct (read_annotations_loop lines1 []) as [acc1|e]; [|discriminate].
  simpl in Hrun.
  destruct (read_annotations_body_shape line)
    as [[Hnone Hskip]|[[e Hraise]|(k & ann & Hk & Hset)]].
  - congruence.
  - rewrite Hraise in Hrun. discriminate.
  - assert (k = v) as -> by congruence.
    exists ann. split; [exact Hset|].
    rewrite Hset in Hrun. simpl in Hrun.
    rewrite (read_annotations_loop_get _ _ _ v Hrun Hlast).
    apply dict_get_set_eq.
Qed.

Lemma read_annotations_last_line_wins_witness :
  ∃ ann,
    (∀ acc, read_annotations_body acc "a.mp4 Normal 3 4 -1 -1"
            = Ok (dict_set acc "a.mp4" ann))
    ∧ dict_get [("a.mp4", mkAnnotation "Normal" [(3, 4)]);
                ("b.mp4", mkAnnotation "Normal" [])] "a.mp4"
      = Some ann.
Proof.
  apply (read_annotations_last_line_wins
           ("a.mp4 Fighting 1 2 -1 -1" +:+ nl +:+ "a.mp4 Normal 3 4 -1 -1"
            +:+ nl +:+ "b.mp4 Normal -1 -1 -1 -1" +:+ nl)
           ["a.mp4 Fighting 1 2 -1 -1" +:+ nl]
           ["b.mp4 Normal -1 -1 -1 -1" +:+ nl]
           ("a.mp4 Normal 3 4 -1 -1" +:+ nl) "a.mp4").
  - vm_compute. reflexivity.
  - vm_compute. reflexivity.
  - vm_compute. reflexivity.
  - intros l Hl. apply list_elem_of_singleton in Hl as ->.
    vm_compute. discriminate.
Defined.

(** X3. The videos keep the order of their first lines: the names read from
    a first part of the lines stay, in the same order, at the front of the
    names read from all the lines. *)
Theorem read_annotations_keeps_order (lines1 lines2 : list string)
  (d1 d : list (string * Annotation)) :
  read_annotations_loop lines1 [] = Ok d1 →
  read_annotations_loop (lines1 ++ lines2) [] = Ok d →
  map fst d1 `prefix_of` map fst d.
Proof.
  intros Hfirst Hall. rewrite read_annotations_loop_app, Hfirst in Hall.
  simpl in Hall. by destruct (read_annotations_loop_keys _ _ _ Hall) as (_ & ? & _).
Qed.

Lemma read_annotations_keeps_order_witness :
  map fst [("a.mp4", mkAnnotation "Fighting" [(1, 2)]);
           ("b.mp4", mkAnnotation "Normal" [])]
  `prefix_of`
  map fst [("a.mp4", mkAnnotation "Normal" []);
           ("b.mp4", mkAnnotation "Normal" []);
           ("c.mp4", mkAnnotation "Normal" [])].
Proof.
  apply (read_annotations_keeps_order
           ["a.mp4 Fighting 1 2 -1 -1"; "b.mp4 Normal -1 -1 -1 -1"]
           ["c.mp4 Normal -1 -1 -1 -1"; "a.mp4 Normal -1 -1 -1 -1"]).
  - vm_compute. reflexivity.
  - vm_compute. reflexivity.
Defined.

(** ** More on frame labelling *)

(** X4. Only the set of intervals matters: intervals may overlap, repeat or
    come in any order. A list with more intervals never turns a 1 into a 0,
    and two lists with the same intervals give the same answer. *)
Theorem is_frame_in_annotation_set (n : Z) (ivs ivs' : list (Z * Z)) :
  ((∀ iv, iv ∈ ivs → iv ∈ ivs') →
   is_frame_in_annotation n ivs ≤ is_frame_in_annotation n ivs')
  ∧ ((∀ iv, iv ∈ ivs ↔ iv ∈ ivs') →
     is_frame_in_annotation n ivs = is_frame_in_annotation n ivs').
Proof.
  assert (Hmono : ∀ a b : list (Z * Z),
             (∀ iv, iv ∈ a → iv ∈ b) →
             is_frame_in_annotation n a ≤ is_frame_in_annotation n b).
  { intros a b Hsub.
    destruct (is_frame_in_annotation_bit n a) as [Ha|Ha];
      destruct (is_frame_in_annotation_bit n b) as [Hb|Hb]; try lia.
    apply is_frame_in_annotation_one in Ha as (s & e & Hin & Hs & He).
    assert (is_frame_in_annotation n b = 1) as Hone; [|lia].
    apply is_frame_in_annotation_one. exists s, e. by split; [apply Hsub|]. }
  split; [apply Hmono|]. intros Hsame.
  apply Z.le_antisymm; apply Hmono; intros iv; apply Hsame.
Qed.

Lemma is_frame_in_annotation_set_witness :
  is_frame_in_annotation 7 [(5, 9); (1, 3)]
  = is_frame_in_annotation 7 [(1, 3); (5, 9); (1, 3)].
Proof.
  apply (is_frame_in_annotation_set 7 [(5, 9); (1, 3)] [(1, 3); (5, 9); (1, 3)]).
  intros iv. rewrite !elem_of_cons, !elem_of_nil. tauto.
Defined.

(** X5. An interval whose start is after its end matches no frame: dropping
    all such intervals from the list changes no answer. *)
Theorem is_frame_in_annotation_reversed (n : Z) (ivs : list (Z * Z)) :
  is_frame_in_annotation n ivs
  = is_frame_in_annotation n (filter (λ iv, iv.1 ≤ iv.2) ivs).
Proof.
  induction ivs as [|[s e] ivs IH]; [done|].
  rewrite filter_cons. cbn [fst snd].
  destruct (decide (s ≤ e)) as [Hle|Hgt]; cbn [is_frame_in_annotation].
  - by rewrite IH.
  - destruct (Z.leb_spec s n), (Z.leb_spec n e); simpl; try exact IH. lia.
Qed.

(** ** More on the keypoint normalization *)

Lemma points_loop_length (points : list ndarray) (coords out : list pyval) :
  points_loop points coords = Ok out →
  length out = (length coords + 2 * length points)%nat.
Proof.
  revert coords. induction points as [|point points IH]; intros coords; simpl.
  - intros [= <-]. lia.
  - destruct (Np.item point 0) as [p0|]; simpl; [|done].
    destruct (Np.to_float p0) as [x|]; simpl; [|done].
    destruct (Np.item point 1) as [p1|]; simpl; [|done].
    destruct (Np.to_float p1) as [y|]; simpl; [|done].
    intros Hrun. rewrite (IH _ Hrun), length_app. simpl. lia.
Qed.

Lemma person_coords_length (person : Person) (v : list pyval) :
  person_coords person = Ok v →
  (34 ≤ length v)%nat ∧ ∃ k, length v = (2 * k)%nat.
Proof.
  unfold person_coords.
  destruct (Np.shape0 (xy person)) as [n|]; simpl; [|done].
  destruct (if Nat.eqb n 1 then Np.item (xy person) 0 else Ok (xy person))
    as [kp_array|]; simpl; [|done].
  destruct (Np.iterate kp_array) as [points|]; simpl; [|done].
  destruct (points_loop points []) as [coords|] eqn:Hloop; simpl; [|done].
  apply points_loop_length in Hloop. simpl in Hloop.
  destruct (Nat.ltb_spec (length coords) 34) as [Hlt|Hge]; intros [= <-].
  - rewrite length_app, repeat_length. split; [lia|]. exists 17%nat. lia.
  - split; [lia|]. by exists (length points).
Qed.

Lemma persons_loop_all (persons : list Person) (vectors acc : list (list pyval)) :
  Forall2 (λ person v, person_coords person = Ok v) persons vectors →
  persons_loop persons acc = Ok (acc ++ vectors).
Proof.
  intros Hall. revert acc.
  induction Hall as [|person v persons vectors Hperson _ IH]; intros acc; simpl.
  - by rewrite app_nil_r.
  - rewrite Hperson. simpl. rewrite IH. by rewrite <- app_assoc.
Qed.

Lemma persons_loop_inv (persons : list Person) (acc out : list (list pyval)) :
  persons_loop persons acc = Ok out →
  ∃ vectors, out = acc ++ vectors
             ∧ Forall2 (λ person v, person_coords person = Ok v) persons vectors.
Proof.
  revert acc. induction persons as [|person persons IH]; intros acc; simpl.
  - intros [= <-]. exists []. by rewrite app_nil_r.
  - destruct (person_coords person) as [v|] eqn:Hperson; simpl; [|done].
    intros Hrun. destruct (IH _ Hrun) as (vectors & -> & Hall).
    exists (v :: vectors). split; [by rewrite <- app_assoc|].
    by constructor.
Qed.

Lemma persons_loop_raise (good : list Person) (bad : Person)
  (rest : list Person) (vectors acc : list (list pyval)) (e : exn) :
  Forall2 (λ person v, person_coords person = Ok v) good vectors →
  person_coords bad = Raise e →
  persons_loop (good ++ bad :: rest) acc = Raise e.
Proof.
  intros Hall Hbad. revert acc.
  induction Hall as [|person v persons vectors' Hperson _ IH]; intros acc; simpl.
  - by rewrite Hbad.
  - rewrite Hperson. simpl. apply IH.
Qed.

(** X6. Whatever arrays the detector hands over, when the normalization
    returns it returns at least one vector, every vector has at least 34
    values, and an even number of them. *)
Theorem collect_detections_vectors (results : list PoseResult)
  (detections : list (list pyval)) :
  collect_detections results = Ok detections →
  detections ≠ []
  ∧ Forall (λ v, (34 ≤ length v)%nat ∧ ∃ k, length v = (2 * k)%nat) detections.
Proof.
  intros Hrun. split; [by eapply collect_detections_nonempty|].
  assert (Hzero : Forall (λ v : list pyval, (34 ≤ length v)%nat
                             ∧ ∃ k, length v = (2 * k)%nat)
                    [repeat (PInt 0) 34]).
  { constructor; [|done]. split; [simpl; lia|]. by exists 17%nat. }
  unfold collect_detections in Hrun.
  destruct results as [|[[[|person persons]|]] rest]; simpl in Hrun;
    try (injection Hrun as <-; exact Hzero).
  destruct (person_coords person) as [v|] eqn:Hperson; simpl in Hrun; [|done].
  destruct (persons_loop persons [v]) as [out|] eqn:Hloop; simpl in Hrun;
    [|done].
  apply persons_loop_inv in Hloop as (vectors & -> & Hall).
  simpl in Hrun. injection Hrun as <-.
  constructor; [by eapply person_coords_length|].
  clear Hperson. induction Hall as [|p w ps ws Hp _ IH]; [done|].
  constructor; [by eapply person_coords_length|done].
Qed.

Lemma collect_detections_vectors_witness :
  [normalized [(1.5, 2.5)%float]] ≠ [].
Proof.
  apply (collect_detections_vectors
           [mkPoseResult (Some [mkPerson (wrapped_points [(1.5, 2.5)%float])])]).
  reflexivity.
Defined.

(** X7. From k >= 1 persons whose arrays can all be read, the normalization
    returns exactly their k vectors, in the detector's order, and no zero
    vector is added; the results after the first are not looked at. *)
Theorem collect_detections_in_order (persons : list Person)
  (vectors : list (list pyval)) (rest : list PoseResult) :
  persons ≠ [] →
  Forall2 (λ person v, person_coords person = Ok v) persons vectors →
  collect_detections (mkPoseResult (Some persons) :: rest) = Ok vectors.
Proof.
  intros Hne Hall. unfold collect_detections. cbn [keypoints].
  destruct Hall as [|person v persons vectors Hperson Hall]; [done|].
  pose proof (persons_loop_all (person :: persons) (v :: vectors) [])
    as Hloop.
  rewrite Hloop; [done|]. by constructor.
Qed.

Lemma collect_detections_in_order_witness :
  collect_detections
    [mkPoseResult (Some [mkPerson (flat_points [(1, 2); (3, 4)]%float);
                         mkPerson (wrapped_points [(5, 6)]%float)])]
  = Ok [normalized [(1, 2); (3, 4)]%float; normalized [(5, 6)%float]].
Proof.
  apply (collect_detections_in_order
           [mkPerson (flat_points [(1, 2); (3, 4)]%float);
            mkPerson (wrapped_points [(5, 6)]%float)]).
  - discriminate.
  - repeat constructor.
Defined.

(** X8. One person whose array cannot be read fails the whole frame: the
    exception of the first such person leaves the normalization, and neither
    the vectors of the persons before it nor a zero vector are returned. *)
Theorem collect_detections_person_error (good : list Person) (bad : Person)
  (others : list Person) (vectors : list (list pyval)) (e : exn)
  (rest : list PoseResult) :
  Forall2 (λ person v, person_coords person = Ok v) good vectors →
  person_coords bad = Raise e →
  collect_detections (mkPoseResult (Some (good ++ bad :: others)) :: rest)
  = Raise e.
Proof.
  intros Hall Hbad. unfold collect_detections. cbn [keypoints].
  pose proof (persons_loop_raise good bad others vectors [] e Hall Hbad)
    as Hloop.
  destruct (good ++ bad :: others) as [|p ps] eqn:Hlist.
  - by destruct good.
  - by rewrite Hloop.
Qed.

Lemma collect_detections_person_error_witness :
  collect_detections
    [mkPoseResult (Some [mkPerson (wrapped_points [(5, 6)]%float);
                         mkPerson (Scalar 1%float)])]
  = Raise IndexError.
Proof.
  apply (collect_detections_person_error
           [mkPerson (wrapped_points [(5, 6)]%float)]
           (mkPerson (Scalar 1%float)) []
           [normalized [(5, 6)%float]]).
  - repeat constructor.
  - reflexivity.
Defined.

(** X9. A person with more than 17 points is not cut down to 34 values: the
    vector holds all the coordinates, two per point, and no padding. *)
Theorem person_coords_no_truncation (pts : list (float * float)) :
  (17 < length pts)%nat →
  person_coords (mkPerson (wrapped_points pts)) = Ok (flatten_points pts)
  ∧ length (flatten_points pts) = (2 * length pts)%nat.
Proof.
  intros Hmany. split; [|apply length_flatten_points].
  rewrite person_coords_wrapped. unfold normalized.
  replace (34 - 2 * length pts)%nat with 0%nat by lia.
  simpl. by rewrite app_nil_r.
Qed.

Lemma person_coords_no_truncation_witness :
  length (flatten_points (repeat (1, 2)%float 18)) = 36%nat.
Proof.
  apply (person_coords_no_truncation (repeat (1, 2)%float 18)).
  simpl. lia.
Defined.

(** X10. Persons given as flat lists of points, none of them of exactly one
    point, are normalized like the wrapped ones: coordinates in order, then
    zeros up to 34 values. *)
Theorem collect_detections_flat (ptss : list (list (float * float)))
  (rest : list PoseResult) :
  ptss ≠ [] →
  Forall (λ pts, length pts ≠ 1%nat) ptss →
  collect_detections
    (mkPoseResult (Some (map (λ pts, mkPerson (flat_points pts)) ptss)) :: rest)
  = Ok (map normalized ptss).
Proof.
  intros Hne Hlen. unfold collect_detections. cbn [keypoints].
  assert (Hall : Forall2 (λ person v, person_coords person = Ok v)
                   (map (λ pts, mkPerson (flat_points pts)) ptss)
                   (map normalized ptss)).
  { apply Forall2_fmap, Forall_Forall2_diag.
    eapply Forall_impl; [exact Hlen|]. intros pts Hpts.
    by apply person_coords_flat. }
  pose proof (persons_loop_all _ _ [] Hall) as Hloop.
  destruct ptss as [|pts ptss]; [done|]. cbn [map] in *.
  by rewrite Hloop.
Qed.

Lemma collect_detections_flat_witness :
  collect_detections
    [mkPoseResult (Some (map (λ pts, mkPerson (flat_points pts))
                           [[(1, 2); (3, 4)]%float; []]))]
  = Ok (map normalized [[(1, 2); (3, 4)]%float; []]).
Proof.
  apply (collect_detections_flat [[(1, 2); (3, 4)]%float; []] []).
  - discriminate.
  - repeat constructor; simpl; lia.
Defined.

(** ** More on the pipeline *)

Lemma last_frame_rows (event_name : string) (intervals : list (Z * Z))
  (n : Z) (detections : list (list pyval)) (row : list pyval) :
  row ∈ frame_rows event_name intervals n detections →
  last row = Some (PInt (frame_label event_name n intervals))
  ∧ ∃ person_id keypoints,
      detections !! person_id = Some keypoints
      ∧ row = [PInt n; PInt (Z.of_nat person_id)] ++ keypoints
              ++ [PInt (frame_label event_name n intervals)].
Proof.
  unfold frame_rows. intros Hrow.
  apply list_elem_of_lookup in Hrow as [i Hi].
  rewrite list_lookup_imap in Hi.
  destruct (detections !! i) as [kp|] eqn:Hkp; simpl in Hi; [|done].
  injection Hi as <-. split; [|by exists i, kp].
  exact (last_snoc _ (PInt n :: PInt (Z.of_nat i) :: kp)).
Qed.

Section PipelineMore.

Context {Frame : Type}.
Context (cvtColor : Frame → Frame).
Context (pose_model : Frame → result (list PoseResult)).
Context (video_store : string → option (list Frame)).
Context (os_path_join : string → string → string).
Context (os_path_splitext : string → string * string).

#[local] Abbreviation detect := (detect_keypoints cvtColor pose_model).
#[local] Abbreviation run_frames := (frame_loop cvtColor pose_model).
#[local] Abbreviation run_video := (process_video cvtColor pose_model video_store).
#[local] Abbreviation run_items :=
  (main_loop cvtColor pose_model video_store os_path_join os_path_splitext).
Context (csv_text : list (list pyval) → string).

#[local] Abbreviation run_main :=
  (main cvtColor pose_model video_store os_path_join os_path_splitext
     csv_text).

(** The frames of a video: the detector handles them all, or there is a
    first one on which it raises. *)
Lemma frames_split (frames : list Frame) :
  (∃ dets, Forall2 (λ frame d, detect frame = Ok d) frames dets)
  ∨ (∃ good bad rest dets e,
       frames = good ++ bad :: rest
       ∧ Forall2 (λ frame d, detect frame = Ok d) good dets
       ∧ detect bad = Raise e).
Proof.
  induction frames as [|frame frames IH].
  - left. by exists [].
  - destruct (detect frame) as [d|e] eqn:Hframe.
    + destruct IH as [[dets Hall]|(good & bad & rest & dets & e & -> & Hall & Hbad)].
      * left. exists (d :: dets). by constructor.
      * right. exists (frame :: good), bad, rest, (d :: dets), e.
        split; [done|]. split; [by constructor|done].
    + right. exists [], frame, frames, [], e. by split; [|split; [constructor|]].
Qed.

Lemma detect_keypoints_wide (frame : Frame) (detections : list (list pyval)) :
  detect frame = Ok detections →
  Forall (λ v, (34 ≤ length v)%nat) detections.
Proof.
  unfold detect_keypoints.
  destruct (pose_model (cvtColor frame)) as [results|]; simpl; [|done].
  intros Hrun. apply collect_detections_nonempty in Hrun as Hne.
  unfold collect_detections in Hrun.
  destruct results as [|[[[|person persons]|]] rest]; simpl in Hrun;
    try (injection Hrun as <-; constructor; [simpl; lia|done]).
  destruct (person_coords person) as [v|] eqn:Hperson; simpl in Hrun; [|done].
  destruct (persons_loop persons [v]) as [out|] eqn:Hloop; simpl in Hrun;
    [|done].
  apply persons_loop_inv in Hloop as (vectors & -> & Hall).
  simpl in Hrun. injection Hrun as <-.
  constructor; [by eapply person_coords_length|].
  clear Hperson Hne. induction Hall as [|p w ps ws Hp _ IH]; [done|].
  constructor; [by eapply person_coords_length|done].
Qed.

Lemma process_video_ok_console (video_path event_name : string)
  (intervals : list (Z * Z)) (output_csv_path : string) (w w' : World)
  (frames : list Frame) :
  video_store video_path = Some frames →
  run_video video_path event_name intervals output_csv_path w = (w', Ok tt) →
  console w'
  = console w
    ++ [InfoProcessed video_path output_csv_path (Z.of_nat (length frames))].
Proof.
  intros Hstore Hrun. unfold process_video in Hrun. rewrite Hstore in Hrun.
  destruct (frames_split frames)
    as [[dets Hall]|(good & bad & rest & dets & e & -> & Hall & Hbad)].
  - rewrite (frame_loop_all_detected _ _ _ _ _ dets) in Hrun; [|done].
    by injection Hrun as <-.
  - rewrite (frame_loop_detector_error _ _ _ _ _ _ _ dets e) in Hrun;
      [|done..].
    discriminate.
Qed.


(** X12. When [process_video] returns normally on a video that opens, the
    detector has handled every frame, the count it reports is the number of
    frames of the video, that report is the only line printed, and the
    capture has been released. *)
Theorem process_video_reports_frames (video_path event_name : string)
  (intervals : list (Z * Z)) (output_csv_path : string) (w w' : World)
  (frames : list Frame) :
  video_store video_path = Some frames →
  run_video video_path event_name intervals output_csv_path w = (w', Ok tt) →
  console w'
  = console w
    ++ [InfoProcessed video_path output_csv_path (Z.of_nat (length frames))]
  ∧ open_captures w' = open_captures w
  ∧ ∃ dets, Forall2 (λ frame d, detect frame = Ok d) frames dets.
Proof.
  intros Hstore Hrun. unfold process_video in Hrun. rewrite Hstore in Hrun.
  destruct (frames_split frames)
    as [[dets Hall]|(good & bad & rest & dets & e & -> & Hall & Hbad)].
  - rewrite (frame_loop_all_detected _ _ _ _ _ dets) in Hrun; [|done].
    injection Hrun as <-. simpl. rewrite String.eqb_refl.
    split; [done|]. split; [done|]. by exists dets.
  - rewrite (frame_loop_detector_error _ _ _ _ _ _ _ dets e) in Hrun;
      [|done..].
    discriminate.
Qed.

(** X13. When the detector raises on a frame, [process_video] raises the
    same exception and prints nothing; the file holds the header and the
    rows of the frames before that one, and nothing of the frames after. *)
Theorem process_video_truncated_table (video_path event_name : string)
  (intervals : list (Z * Z)) (output_csv_path : string) (w : World)
  (good : list Frame) (bad : Frame) (rest : list Frame)
  (dets : list (list (list pyval))) (e : exn) :
  video_store video_path = Some (good ++ bad :: rest) →
  Forall2 (λ frame d, detect frame = Ok d) good dets →
  detect bad = Raise e →
  ∃ w',
    run_video video_path event_name intervals output_csv_path w
    = (w', Raise e)
    ∧ csv_files w' !! output_csv_path
      = Some (header
              :: concat (imap (λ i d,
                           frame_rows event_name intervals (Z.of_nat (S i)) d)
                           dets))
    ∧ console w' = console w.
Proof.
  intros Hstore Hall Hbad. unfold process_video. rewrite Hstore.
  rewrite (frame_loop_detector_error _ _ _ _ _ _ _ dets e); [|done..].
  eexists. split; [reflexivity|]. split; [|done].
  cbn [csv_files write_csv]. apply lookup_insert_eq.
Qed.

(** X14. No row is narrower than the header: in the table of a video that
    opens, complete or cut short by a detector error, the first row is the
    header and every row has at least 37 cells. *)
Theorem process_video_row_width (video_path event_name : string)
  (intervals : list (Z * Z)) (output_csv_path : string) (w : World)
  (frames : list Frame) :
  video_store video_path = Some frames →
  ∃ rows,
    csv_files
      (run_video video_path event_name intervals output_csv_path w).1
    !! output_csv_path = Some (header :: rows)
    ∧ length header = 37%nat
    ∧ Forall (λ row, (37 ≤ length row)%nat) rows.
Proof.
  intros Hstore. unfold process_video. rewrite Hstore.
  assert (Hwide : ∀ (fs : list Frame) dets,
             Forall2 (λ frame d, detect frame = Ok d) fs dets →
             Forall (λ row : list pyval, (37 ≤ length row)%nat)
               (concat (imap (λ i d,
                          frame_rows event_name intervals (Z.of_nat (S i)) d)
                          dets))).
  { intros fs dets Hall. apply Forall_concat, Forall_forall.
    intros block Hblock. apply list_elem_of_lookup in Hblock as [i Hi].
    rewrite list_lookup_imap in Hi.
    destruct (dets !! i) as [d|] eqn:Hd; simpl in Hi; [|done].
    injection Hi as <-. apply Forall_forall. intros row Hrow.
    apply last_frame_rows in Hrow as (_ & p & kp & Hkp & ->).
    destruct (Forall2_lookup_r _ _ _ _ _ Hall Hd) as (frame & _ & Hframe).
    apply detect_keypoints_wide in Hframe.
    rewrite Forall_forall in Hframe.
    assert (34 ≤ length kp)%nat
      by (apply Hframe; by eapply list_elem_of_lookup_2).
    rewrite !length_app. simpl. lia. }
  destruct (frames_split frames)
    as [[dets Hall]|(good & bad & rest & dets & e & -> & Hall & Hbad)].
  - rewrite (frame_loop_all_detected _ _ _ _ _ dets); [|done].
    eexists. split; [simpl; apply lookup_insert_eq|].
    split; [reflexivity|]. by eapply Hwide.
  - rewrite (frame_loop_detector_error _ _ _ _ _ _ _ dets e); [|done..].
    eexists. split; [simpl; apply lookup_insert_eq|].
    split; [reflexivity|]. by eapply Hwide.
Qed.

(** X15. For a video whose event is not "Fighting", every data row written
    carries the label 0, whatever the intervals. *)
Theorem process_video_event_gate (video_path event_name : string)
  (intervals : list (Z * Z)) (output_csv_path : string) (w : World)
  (frames : list Frame) :
  video_store video_path = Some frames →
  event_name ≠ "Fighting" →
  ∃ rows,
    csv_files
      (run_video video_path event_name intervals output_csv_path w).1
    !! output_csv_path = Some (header :: rows)
    ∧ ∀ row, row ∈ rows → last row = Some (PInt 0).
Proof.
  intros Hstore Hevent. unfold process_video. rewrite Hstore.
  assert (Hlabel : ∀ n, frame_label event_name n intervals = 0).
  { intros n. unfold frame_label.
    by destruct (String.eqb_spec event_name "Fighting"). }
  assert (Hzero : ∀ dets (row : list pyval),
             row ∈ concat (imap (λ i d,
                             frame_rows event_name intervals
                               (Z.of_nat (S i)) d) dets) →
             last row = Some (PInt 0)).
  { intros dets row Hrow.
    apply list_elem_of_In, in_concat in Hrow as (block & Hblock & Hrow).
    apply list_elem_of_In in Hblock, Hrow.
    apply list_elem_of_lookup in Hblock as [i Hi].
    rewrite list_lookup_imap in Hi.
    destruct (dets !! i) as [d|]; simpl in Hi; [|done].
    injection Hi as <-. apply last_frame_rows in Hrow as [Hlast _].
    by rewrite Hlabel in Hlast. }
  destruct (frames_split frames)
    as [[dets Hall]|(good & bad & rest & dets & e & -> & Hall & Hbad)].
  - rewrite (frame_loop_all_detected _ _ _ _ _ dets); [|done].
    eexists. split; [simpl; apply lookup_insert_eq|]. apply Hzero.
  - rewrite (frame_loop_detector_error _ _ _ _ _ _ _ dets e); [|done..].
    eexists. split; [simpl; apply lookup_insert_eq|]. apply Hzero.
Qed.

Lemma read_annotations_loop_blank (lines : list string)
  (acc : list (string * Annotation)) :
  (∀ line, line ∈ lines → PyStr.strip line = "") →
  read_annotations_loop lines acc = Ok acc.
Proof.
  induction lines as [|l lines IH]; intros Hblank; simpl; [done|].
  rewrite read_annotations_body_blank; [|apply Hblank; left]. simpl.
  apply IH. intros line Hin. apply Hblank. by right.
Qed.

Lemma makedirs_exist_ok_done (w : World) (name : string) :
  name ∈ directories w ∨ ¬ regular_file w name →
  makedirs_exist_ok w name = (with_directory w name, Ok tt).
Proof.
  intros Hfree. unfold makedirs_exist_ok.
  destruct (decide (name ∈ directories w)) as [Hdir|Hnew].
  - f_equal. destruct w as [csv texts dirs out caps].
    unfold with_directory. simpl in *. f_equal. symmetry.
    apply subseteq_union_1_L. by apply singleton_subseteq_l.
  - destruct Hfree as [Hdir|Hfree]; [done|].
    destruct (csv_files w !! name) as [rows|] eqn:Hcsv.
    { exfalso. apply Hfree. left. by rewrite Hcsv. }
    destruct (text_files w !! name) as [text|] eqn:Htext; [|done].
    exfalso. apply Hfree. right. by rewrite Htext.
Qed.


(** X16. With an annotation file that is empty, or holds blank lines only,
    [main] makes the output directory and nothing else: the mapping is
    empty, no video is processed, nothing is printed, no file is written,
    and [main] returns normally. *)
Theorem main_blank_annotations (w : World) (text : string) :
  csv_output_dir ∈ directories w ∨ ¬ regular_file w csv_output_dir →
  text_files w !! annotations_file os_path_join = Some text →
  (∀ line, line ∈ PyStr.file_lines text → PyStr.strip line = "") →
  read_annotations text = Ok []
  ∧ run_main w = (with_directory w csv_output_dir, Ok tt).
Proof.
  intros Hdir Hfile Hblank.
  assert (Hread : read_annotations text = Ok [])
    by by apply read_annotations_loop_blank.
  split; [done|]. unfold main. rewrite (makedirs_exist_ok_done _ _ Hdir).
  unfold read_text. cbn [text_files with_directory]. by rewrite Hfile, Hread.
Qed.


(** X18. The loop of [main] stops at the first video on which
    [process_video] raises: the exception leaves the loop with the world as
    [process_video] left it, and the videos after that one are not
    announced, opened or written. *)
Theorem main_loop_stops_at_error (before rest : list (string * Annotation))
  (video_name : string) (info : Annotation) (w w0 w1 : World) (e : exn) :
  run_items before w = (w0, Ok tt) →
  run_video (os_path_join dataset_dir video_name) (event info)
    (intervals info)
    (os_path_join csv_output_dir
       ((os_path_splitext video_name).1 +:+ ".csv"))
    (print w0 (InfoStart video_name (event info)))
  = (w1, Raise e) →
  run_items (before ++ (video_name, info) :: rest) w = (w1, Raise e).
Proof.
  intros Hbefore Hvideo.
  rewrite main_loop_app, Hbefore. cbn [main_loop]. by rewrite Hvideo.
Qed.

(** X19. When the loop of [main] returns normally, what it printed is, for
    each video of the mapping in order, the line that announces it followed
    by exactly one line: the error line if the video could not be opened,
    else the report with the number of frames of the video. *)
Theorem main_loop_console (items : list (string * Annotation))
  (w w' : World) :
  run_items items w = (w', Ok tt) →
  ∃ outcomes,
    console w'
    = console w
      ++ concat (zip_with (λ item o, [InfoStart item.1 (event item.2); o])
                   items outcomes)
    ∧ Forall2 (λ item o,
         let video_path := os_path_join dataset_dir item.1 in
         (video_store video_path = None ∧ o = ErrorCannotOpen video_path)
         ∨ ∃ frames,
             video_store video_path = Some frames
             ∧ o = InfoProcessed video_path
                     (os_path_join csv_output_dir
                        ((os_path_splitext item.1).1 +:+ ".csv"))
                     (Z.of_nat (length frames)))
         items outcomes.
Proof.
  revert w. induction items as [|[video_name info] items IH]; intros w Hrun.
  - injection Hrun as <-. exists []. by rewrite app_nil_r.
  - cbn [main_loop] in Hrun.
    set (w1 := print w (InfoStart video_name (event info))) in Hrun.
    destruct (process_video _ _ _ _ _ _ _ w1) as [w2 [[]|e]] eqn:Hvideo;
      [|done].
    destruct (IH _ Hrun) as (outcomes & Hconsole & Houtcomes).
    destruct (video_store (os_path_join dataset_dir video_name))
      as [frames|] eqn:Hstore.
    + pose proof (process_video_ok_console _ _ _ _ _ _ _ Hstore Hvideo)
        as Hprinted.
      eexists (_ :: outcomes). split.
      * rewrite Hconsole, Hprinted. cbn [zip_with concat fst snd].
        unfold w1. cbn [console print]. by rewrite <- !app_assoc.
      * constructor; [|done]. right. by exists frames.
    + unfold process_video in Hvideo. rewrite Hstore in Hvideo.
      injection Hvideo as <-.
      eexists (_ :: outcomes). split.
      * rewrite Hconsole. cbn [zip_with concat fst snd].
        unfold w1. cbn [console print]. by rewrite <- !app_assoc.
      * constructor; [|done]. by left.
Qed.

End PipelineMore.

(** ** More of the pipeline on the fixture *)


Lemma process_video_reports_frames_witness :
  console
    (process_video Fixture.cvtColor Fixture.pose_model Fixture.video_store
       "dataset/a.mp4" "Fighting" [(2, 5)] "csv/a.csv" Fixture.empty_world).1
  = [InfoProcessed "dataset/a.mp4" "csv/a.csv" 2].
Proof.
  destruct (process_video_reports_frames
              Fixture.cvtColor Fixture.pose_model Fixture.video_store
              "dataset/a.mp4" "Fighting" [(2, 5)] "csv/a.csv"
              Fixture.empty_world _ [Fixture.nobody; Fixture.two_persons]
              eq_refl eq_refl)
    as (Hconsole & _ & _).
  exact Hconsole.
Defined.

Lemma process_video_truncated_table_witness :
  ∃ w',
    process_video Fixture.cvtColor Fixture.pose_model Fixture.video_store
      "dataset/bad.mp4" "Fighting" [(1, 3)] "csv/bad.csv" Fixture.empty_world
    = (w', Raise (DetectorError 0))
    ∧ (length <$> csv_files w' !! "csv/bad.csv") = Some 2%nat
    ∧ console w' = [].
Proof.
  destruct (process_video_truncated_table
              Fixture.cvtColor Fixture.pose_model Fixture.video_store
              "dataset/bad.mp4" "Fighting" [(1, 3)] "csv/bad.csv"
              Fixture.empty_world
              [Fixture.one_person] Fixture.detector_down [Fixture.one_person]
              [[normalized [(1.5, 2.5)%float]]] (DetectorError 0))
    as (w' & Hrun & Hcsv & Hconsole).
  - reflexivity.
  - repeat constructor.
  - reflexivity.
  - exists w'. split; [exact Hrun|]. split; [by rewrite Hcsv|exact Hconsole].
Defined.

Lemma process_video_row_width_witness :
  ∃ rows,
    csv_files
      (process_video Fixture.cvtColor Fixture.pose_model Fixture.video_store
         "dataset/bad.mp4" "Fighting" [(1, 3)] "csv/bad.csv"
         Fixture.empty_world).1
    !! "csv/bad.csv" = Some (header :: rows)
    ∧ length header = 37%nat
    ∧ Forall (λ row, (37 ≤ length row)%nat) rows.
Proof.
  apply (process_video_row_width
           Fixture.cvtColor Fixture.pose_model Fixture.video_store
           "dataset/bad.mp4" "Fighting" [(1, 3)] "csv/bad.csv"
           Fixture.empty_world
           [Fixture.one_person; Fixture.detector_down; Fixture.one_person]).
  reflexivity.
Defined.

Lemma process_video_event_gate_witness :
  ∃ rows,
    csv_files
      (process_video Fixture.cvtColor Fixture.pose_model Fixture.video_store
         "dataset/a.mp4" "Normal" [(1, 5)] "csv/a.csv"
         Fixture.empty_world).1
    !! "csv/a.csv" = Some (header :: rows)
    ∧ ∀ row, row ∈ rows → last row = Some (PInt 0).
Proof.
  apply (process_video_event_gate
           Fixture.cvtColor Fixture.pose_model Fixture.video_store
           "dataset/a.mp4" "Normal" [(1, 5)] "csv/a.csv" Fixture.empty_world
           [Fixture.nobody; Fixture.two_persons]).
  - reflexivity.
  - discriminate.
Defined.

Lemma main_blank_annotations_witness :
  let w :=
    mkWorld ∅ {[ "annotations/temporal_annotation.txt" := nl +:+ "  " +:+ nl ]}
      ∅ [] [] in
  main Fixture.cvtColor Fixture.pose_model Fixture.video_store
    Fixture.os_path_join Fixture.os_path_splitext Fixture.csv_text w
  = (with_directory w "csv", Ok tt).
Proof.
  intros w.
  apply (main_blank_annotations
           Fixture.cvtColor Fixture.pose_model Fixture.video_store
           Fixture.os_path_join Fixture.os_path_splitext Fixture.csv_text
           w (nl +:+ "  " +:+ nl)).
  - right. intros [[rows Hfile]|[text Hfile]]; vm_compute in Hfile;
      discriminate.
  - reflexivity.
  - intros line Hin. vm_compute in Hin.
    apply elem_of_cons in Hin as [->|Hin]; [reflexivity|].
    apply list_elem_of_singleton in Hin as ->. reflexivity.
Defined.


Lemma main_loop_stops_at_error_witness :
  let run :=
    main_loop Fixture.cvtColor Fixture.pose_model Fixture.video_store
      Fixture.os_path_join Fixture.os_path_splitext
      ([("empty.mp4", mkAnnotation "Normal" [])]
       ++ ("bad.mp4", mkAnnotation "Fighting" [(1, 3)])
       :: [("a.mp4", mkAnnotation "Fighting" [(2, 5)])])
      Fixture.empty_world in
  run.2 = Raise (DetectorError 0)
  ∧ csv_files run.1 !! "csv/a.csv" = None.
Proof.
  intros run. subst run.
  rewrite (main_loop_stops_at_error
             Fixture.cvtColor Fixture.pose_model Fixture.video_store
             Fixture.os_path_join Fixture.os_path_splitext
             [("empty.mp4", mkAnnotation "Normal" [])]
             [("a.mp4", mkAnnotation "Fighting" [(2, 5)])]
             "bad.mp4" (mkAnnotation "Fighting" [(1, 3)])
             Fixture.empty_world _ _ (DetectorError 0) eq_refl eq_refl).
  vm_compute. split; reflexivity.
Defined.

Lemma main_loop_console_witness :
  ∃ outcomes,
    console
      (main_loop Fixture.cvtColor Fixture.pose_model Fixture.video_store
         Fixture.os_path_join Fixture.os_path_splitext
         [("empty.mp4", mkAnnotation "Normal" []);
          ("missing.mp4", mkAnnotation "Fighting" [(1, 2)]);
          ("a.mp4", mkAnnotation "Fighting" [(2, 5)])]
         Fixture.empty_world).1
    = concat (zip_with (λ item o, [InfoStart item.1 (event item.2); o])
                [("empty.mp4", mkAnnotation "Normal" []);
                 ("missing.mp4", mkAnnotation "Fighting" [(1, 2)]);
                 ("a.mp4", mkAnnotation "Fighting" [(2, 5)])]
                outcomes).
Proof.
  destruct (main_loop_console
              Fixture.cvtColor Fixture.pose_model Fixture.video_store
              Fixture.os_path_join Fixture.os_path_splitext
              [("empty.mp4", mkAnnotation "Normal" []);
               ("missing.mp4", mkAnnotation "Fighting" [(1, 2)]);
               ("a.mp4", mkAnnotation "Fighting" [(2, 5)])]
              Fixture.empty_world _ eq_refl)
    as (outcomes & Hconsole & _).
  exists outcomes. exact Hconsole.
Defined.
